(** * ReViews: a shallow embedding of [API.py]

    The backend is glue between a session cookie, a document collection,
    a geocoder and a media host.  Python values are embedded as a small
    universe [pyval]; the request handlers are functions in a state and
    exception monad over a [world] that holds the session, the collection
    and the log of outbound calls.  Interpreter and third-party functions
    the file calls but does not define ([datetime.fromisoformat],
    [bson.ObjectId], [requests.get], [cloudinary.uploader.upload]) are
    section variables.  The collection is a list of documents, held as
    BSON holds them and read through a sort by descending date. *)

From Stdlib Require Import ZArith NArith Bool List String Ascii Lia.
From Stdlib Require Import Permutation Sorted.
From Stdlib Require DecimalString DecimalZ.
Import ListNotations.
Local Open Scope string_scope.
Local Open Scope list_scope.
Local Open Scope Z_scope.

(** ** Python values *)

(** [datetime]: an instant in microseconds since the epoch, and whether the
    object carries a [tzinfo] (offset-aware) or not (offset-naive). *)
Record datetime : Type := mk_datetime { timestamp : Z; aware : bool }.

(** [bson.ObjectId]: a 12-byte value. *)
Definition ObjectId : Type := N.

(** A Python [float], as its binary64 bit pattern. *)
Definition float64 : Type := Z.

#[local] Set Warnings "-register-all".

Inductive pyval : Type :=
| VNone
| VBool (b : bool)
| VInt (n : Z)
| VFloat (f : float64)
| VStr (s : string)
| VDatetime (d : datetime)
| VObjectId (o : ObjectId)
| VList (l : list pyval)
| VDict (d : list (string * pyval)).

(** A [dict] with string keys, in insertion order. *)
Definition pydict : Type := list (string * pyval).

Module Dict.

Fixpoint lookup (k : string) (d : pydict) : option pyval :=
  match d with
  | [] => None
  | (k', v) :: d' => if String.eqb k k' then Some v else lookup k d'
  end.

(** [d.get(k)] *)
Definition get (k : string) (d : pydict) : pyval :=
  match lookup k d with Some v => v | None => VNone end.

(** [d.get(k, default)] *)
Definition get_default (k : string) (default : pyval) (d : pydict) : pyval :=
  match lookup k d with Some v => v | None => default end.

(** [d[k] = v]: an existing key keeps its position. *)
Fixpoint set (k : string) (v : pyval) (d : pydict) : pydict :=
  match d with
  | [] => [(k, v)]
  | (k', v') :: d' =>
      if String.eqb k k' then (k, v) :: d' else (k', v') :: set k v d'
  end.

(** [d.clear()] *)
Definition clear (d : pydict) : pydict := [].

End Dict.

(** Truth value testing ([bool(v)], [if v], [not v]). *)
Definition truthy (v : pyval) : bool :=
  match v with
  | VNone => false
  | VBool b => b
  | VInt n => negb (n =? 0)
  | VFloat f => negb ((f =? 0) || (f =? 2 ^ 63))
  | VStr s => negb (String.eqb s "")
  | VDatetime _ => true
  | VObjectId _ => true
  | VList l => match l with [] => false | _ => true end
  | VDict d => match d with [] => false | _ => true end
  end.

Definition of_option_datetime (o : option datetime) : pyval :=
  match o with Some d => VDatetime d | None => VNone end.

(** [now >= d] for an offset-aware [now]: comparing it with an
    offset-naive [d] is a [TypeError] ([None]). *)
Definition datetime_ge (now : Z) (d : datetime) : option bool :=
  if aware d then Some (timestamp d <=? now) else None.

(** ** Outcomes, the world and the monad *)

(** What a call ends in: a value, a FastAPI [HTTPException], or another
    exception that nothing catches (named by its class). *)
Inductive outcome (A : Type) : Type :=
| Ok (a : A)
| HTTPException (status_code : Z) (detail : string)
| Raise (exn : string).
Arguments Ok {A} a.
Arguments HTTPException {A} status_code detail.
Arguments Raise {A} exn.

(** [fastapi.UploadFile]: the name sent by the client and the bytes of
    the [file] object. *)
Record UploadFile : Type := mk_UploadFile {
  filename : option string;
  file : list Byte.byte
}.

(** Outbound calls, in the order they are made. *)
Inductive call : Type :=
| GeocodeCall (address : string)
| UploadCall (f : UploadFile)
| InsertCall (doc : pydict).

Record world : Type := mk_world {
  session : pydict;            (* request.session *)
  reviews_collection : list pydict;  (* db["Resenas"], in insertion order *)
  calls : list call
}.

Definition with_session (s : pydict) (w : world) : world :=
  mk_world s (reviews_collection w) (calls w).
Definition with_collection (c : list pydict) (w : world) : world :=
  mk_world (session w) c (calls w).
Definition log_call (c : call) (w : world) : world :=
  mk_world (session w) (reviews_collection w) (calls w ++ [c]).

(** State survives an exception: [request.session.clear()] followed by
    [raise] leaves the session cleared. *)
Definition M (A : Type) : Type := world -> outcome A * world.

Definition ret {A} (a : A) : M A := fun w => (Ok a, w).
Definition bind {A B} (m : M A) (k : A -> M B) : M B :=
  fun w =>
    match m w with
    | (Ok a, w') => k a w'
    | (HTTPException c d, w') => (HTTPException c d, w')
    | (Raise e, w') => (Raise e, w')
    end.
Definition raise_http {A} (status_code : Z) (detail : string) : M A :=
  fun w => (HTTPException status_code detail, w).
Definition raise {A} (exn : string) : M A := fun w => (Raise exn, w).
Definition gets {A} (f : world -> A) : M A := fun w => (Ok (f w), w).
Definition modify (f : world -> world) : M unit := fun w => (Ok tt, f w).

Definition lift {A} (o : outcome A) : M A := fun w => (o, w).

Declare Scope py_scope.
Delimit Scope py_scope with py.
Notation "x <- m ;; k" := (bind m (fun x => k))
  (at level 61, m at next level, right associativity) : py_scope.
Notation "' pat <- m ;; k" := (bind m (fun x => match x with pat => k end))
  (at level 61, pat pattern, m at next level, right associativity) : py_scope.
Notation "m ;;; k" := (bind m (fun _ => k))
  (at level 61, right associativity) : py_scope.
Local Open Scope py_scope.

(** Runs the monad's operations in the goal and the hypotheses. *)
Ltac run :=
  unfold bind, ret, gets, modify, raise_http, raise, lift in *; simpl in *.

(** What a third party answers: a decoded value, or an exception. *)
Inductive reply : Type :=
| Replied (data : pyval)
| Failed (exn : string).

(** What a handler returns.  A [dict] returned by a handler is sent as a
    JSON body with status 200, like a rendered template. *)
Inductive response : Type :=
| RedirectResponse (url : string) (status_code : Z)
| TemplateResponse (name : string) (context : pydict)
| JSONResponse (content : pyval).

(** ** Subscripts and attribute calls on dynamic values *)

(** [v is None] *)
Definition is_None (v : pyval) : bool :=
  match v with VNone => true | _ => false end.

(** [v[0]] *)
Definition py_first (v : pyval) : outcome pyval :=
  match v with
  | VList (x :: _) => Ok x
  | VList [] => Raise "IndexError"
  | VStr (String c _) => Ok (VStr (String c EmptyString))
  | VStr EmptyString => Raise "IndexError"
  | VDict _ => Raise "KeyError"
  | _ => Raise "TypeError"
  end.

(** [v[k]] for a string [k] *)
Definition py_getitem (k : string) (v : pyval) : outcome pyval :=
  match v with
  | VDict d =>
      match Dict.lookup k d with Some x => Ok x | None => Raise "KeyError" end
  | _ => Raise "TypeError"
  end.

(** [v.get(k)] *)
Definition py_get (k : string) (v : pyval) : outcome pyval :=
  match v with
  | VDict d => Ok (Dict.get k d)
  | _ => Raise "AttributeError"
  end.

(** [created_at] of a stored document, when it is a date. *)
Definition created_at (doc : pydict) : option Z :=
  match Dict.get "created_at" doc with
  | VDatetime d => Some (timestamp d)
  | _ => None
  end.

(** [a] is not older than [b], as far as both carry a date. *)
Definition newer_or_same (a b : pydict) : Prop :=
  forall ta tb, created_at a = Some ta -> created_at b = Some tb -> tb <= ta.

(** Several outbound calls logged in a row. *)
Definition log_calls (cs : list call) (w : world) : world :=
  mk_world (session w) (reviews_collection w) (calls w ++ cs).

(** ** What the collection keeps and how it is read

    A value read back from the collection is the value that was written,
    except for dates: BSON keeps a date as whole milliseconds since the
    epoch, and the driver hands it back offset-naive.  Integers are taken
    to fit in 64 bits. *)
Fixpoint bson_value (v : pyval) : pyval :=
  match v with
  | VDatetime d => VDatetime (mk_datetime (timestamp d / 1000 * 1000) false)
  | VList l => VList (map bson_value l)
  | VDict d => VDict (map (fun kv => (fst kv, bson_value (snd kv))) d)
  | _ => v
  end.

Definition bson_document (doc : pydict) : pydict :=
  map (fun kv => (fst kv, bson_value (snd kv))) doc.

(** The comparison of [sort("created_at", -1)]: [a] may come before [b].
    A later date comes first.  BSON ranks a date above every other value
    a document of this universe can hold under the key, and a missing key
    counts as null, so a document without a date follows the dated
    ones. *)
Definition newer_eqb (a b : pydict) : bool :=
  match created_at a, created_at b with
  | Some ta, Some tb => tb <=? ta
  | Some _, None => true
  | None, Some _ => false
  | None, None => true
  end.

Fixpoint insert_desc (d : pydict) (l : list pydict) : list pydict :=
  match l with
  | [] => [d]
  | x :: l' => if newer_eqb d x then d :: l else x :: insert_desc d l'
  end.

(** [reviews_collection.find().sort("created_at", -1)], read to the end:
    the documents by descending [created_at].  Documents with the same
    date, and those without a date, come in insertion order; the server
    promises no order between them. *)
Definition find_sort_created_at_desc (c : list pydict) : list pydict :=
  fold_right insert_desc [] c.

(** ** Stand-ins for the third parties

    Closed functions with known answers, used to run the handlers on
    concrete requests. *)
Module Stub.

Definition t0 : Z := 1704067200000000.   (* 2024-01-01T00:00:00+00:00 *)
Definition t1 : Z := 1704070800000000.   (* 2024-01-01T01:00:00+00:00 *)

Definition fromisoformat (s : string) : option datetime :=
  if String.eqb s "2024-01-01T00:00:00+00:00" then Some (mk_datetime t0 true)
  else if String.eqb s "2024-01-01T01:00:00+00:00" then Some (mk_datetime t1 true)
  else None.

(** The session as [login] writes it. *)
Definition login_session : pydict :=
  [ ("user", VDict [ ("google_id", VStr "1089");
                     ("email", VStr "ana@example.com");
                     ("name", VStr "Ana");
                     ("picture", VNone) ]);
    ("token", VStr "eyJhbGciOi");
    ("token_iat", VStr "2024-01-01T00:00:00+00:00");
    ("token_exp", VStr "2024-01-01T01:00:00+00:00") ].

(** What [require_user] hands to a handler for [login_session]. *)
Definition credentials : pydict :=
  [ ("google_id", VStr "1089");
    ("email", VStr "ana@example.com");
    ("name", VStr "Ana");
    ("picture", VNone);
    ("token", VStr "eyJhbGciOi");
    ("iat", VDatetime (mk_datetime t0 true));
    ("exp", VDatetime (mk_datetime t1 true)) ].

(** A request with the cookie of [login_session], one with that cookie
    stripped of its expiry, one with a cookie that holds a token only, and
    one without cookie; the collection is empty. *)
Definition w_login : world := mk_world login_session [] [].
Definition w_no_expiry : world :=
  mk_world [ ("user", VDict [("email", VStr "ana@example.com")]);
             ("token", VStr "eyJhbGciOi") ] [] [].
Definition w_token_only : world := mk_world [("token", VStr "eyJhbGciOi")] [] [].
Definition w_anonymous : world := mk_world [] [] [].

(** A stored review, its date a whole millisecond and offset-naive, and
    the collection that holds it and two later ones. *)
Definition cafe (oid : ObjectId) (name : string) (at_ : Z) : pydict :=
  [ ("_id", VObjectId oid);
    ("name", VStr name);
    ("address", VStr "123 Main St");
    ("latitude", VFloat 0x404459999999999A);
    ("longitude", VFloat 0xC052800000000000);
    ("rating", VInt 4);
    ("author_email", VStr "ana@example.com");
    ("images", VList []);
    ("created_at", VDatetime (mk_datetime at_ false)) ].
Definition cafe_x : pydict := cafe 0x65920080a1b2c3d4e5f60000%N "Cafe X" t0.
Definition cafe_y : pydict := cafe 0x65920080a1b2c3d4e5f60001%N "Cafe Y" (t0 + 1000).
Definition cafe_z : pydict := cafe 0x65920080a1b2c3d4e5f60002%N "Cafe Z" t1.
Definition w_three : world := mk_world [] [cafe_x; cafe_y; cafe_z] [].

Definition nominatim_search (address : string) : reply :=
  if String.eqb address "123 Main St"
  then Replied (VList [VDict [("lat", VStr "40.7"); ("lon", VStr "-74.0")]])
  else Replied (VList []).

Definition float_of_str (s : string) : option float64 :=
  if String.eqb s "40.7" then Some 0x404459999999999A
  else if String.eqb s "-74.0" then Some 0xC052800000000000
  else None.

Definition float_of_int (n : Z) : option float64 :=
  if n =? 0 then Some 0 else None.

(** [str(o)]: 24 lower-case hexadecimal digits.  [ObjectId(s)]: a string
    of 24 hexadecimal digits of either case. *)
Definition hex_digit (n : N) : ascii :=
  nth (N.to_nat n) (list_ascii_of_string "0123456789abcdef") "0"%char.

Fixpoint hex_of (digits : nat) (o : N) : string :=
  match digits with
  | O => ""
  | S k => (hex_of k (o / 16) ++ String (hex_digit (o mod 16)) "")%string
  end.

Definition ObjectId_str (o : ObjectId) : string := hex_of 24 o.

Definition hex_value (c : ascii) : option N :=
  let n := N_of_ascii c in
  if (48 <=? n)%N && (n <=? 57)%N then Some (n - 48)%N
  else if (97 <=? n)%N && (n <=? 102)%N then Some (n - 87)%N
  else if (65 <=? n)%N && (n <=? 70)%N then Some (n - 55)%N
  else None.

Fixpoint hex_parse (s : string) (acc : N) : option N :=
  match s with
  | EmptyString => Some acc
  | String c rest =>
      match hex_value c with
      | Some v => hex_parse rest (acc * 16 + v)%N
      | None => None
      end
  end.

Definition ObjectId_of_str (s : string) : option ObjectId :=
  if Nat.eqb (String.length s) 24 then hex_parse s 0%N else None.

Definition py_repr (v : pyval) : string := "".

Definition cloudinary_upload (f : UploadFile) : reply :=
  match filename f with
  | Some n =>
      Replied (VDict [("secure_url",
                       VStr ("https://res.cloudinary.com/demo/reviews/" ++ n)%string)])
  | None => Failed "cloudinary.exceptions.Error"
  end.

(** An upload with a name and no content, one with both, one with an
    empty name. *)
Definition empty_png : UploadFile := mk_UploadFile (Some "a.png") [].
Definition front_jpg : UploadFile :=
  mk_UploadFile (Some "front.jpg") [Byte.xff; Byte.xd8; Byte.xff].
Definition unnamed : UploadFile := mk_UploadFile (Some "") [Byte.x00].

Definition new_ObjectId (w : world) : ObjectId :=
  (0x65920080a1b2c3d4e5f60000 + N.of_nat (List.length (reviews_collection w)))%N.

(** Stand-ins for the identity verifier and the clock conversions: one
    known credential, whose claims carry the two dates of
    [login_session]. *)
Definition CLIENT_ID : string := "1089.apps.googleusercontent.com".

Definition id_info : pydict :=
  [ ("sub", VStr "1089");
    ("email", VStr "ana@example.com");
    ("name", VStr "Ana");
    ("iat", VInt 1704067200);
    ("exp", VInt 1704070800) ].

Definition verify_oauth2_token (token : pyval) : option pydict :=
  match token with
  | VStr s => if String.eqb s "eyJhbGciOi" then Some id_info else None
  | _ => None
  end.

Definition fromtimestamp (v : pyval) : datetime + string :=
  match v with
  | VInt n => inl (mk_datetime (n * 1000000) true)
  | VFloat _ => inr "OverflowError"
  | _ => inr "TypeError"
  end.

Definition isoformat (d : datetime) : string :=
  if timestamp d =? t0 then "2024-01-01T00:00:00+00:00"
  else if timestamp d =? t1 then "2024-01-01T01:00:00+00:00"
  else "1970-01-01T00:00:00+00:00".

Definition login_data : pydict := [("token", VStr "eyJhbGciOi")].

(** A media host that fails on one file name, and files to try it with. *)
Definition bad_gif : UploadFile := mk_UploadFile (Some "bad.gif") [Byte.x47].
Definition back_jpg : UploadFile :=
  mk_UploadFile (Some "back.jpg") [Byte.xff; Byte.xd8].

Definition flaky_cloudinary_upload (f : UploadFile) : reply :=
  match filename f with
  | Some n =>
      if String.eqb n "bad.gif" then Failed "cloudinary.exceptions.Error"
      else cloudinary_upload f
  | None => Failed "cloudinary.exceptions.Error"
  end.

(** A geocoder that cannot be reached. *)
Definition unreachable_nominatim (address : string) : reply :=
  Failed "requests.exceptions.ConnectionError".

(** A second pair of date conversions, inverse of each other on every
    date: a zone letter and the microseconds since the epoch in
    decimal. *)
Definition isoformat_epoch (d : datetime) : string :=
  String (if aware d then "Z" else "L")%char
    (DecimalString.NilEmpty.string_of_int (Z.to_int (timestamp d))).

Definition fromisoformat_epoch (s : string) : option datetime :=
  match s with
  | EmptyString => None
  | String c rest =>
      match DecimalString.NilEmpty.int_of_string rest with
      | Some i =>
          if Ascii.eqb c "Z" then Some (mk_datetime (Z.of_int i) true)
          else if Ascii.eqb c "L" then Some (mk_datetime (Z.of_int i) false)
          else None
      | None => None
      end
  end.

(** The names of the reviews a rendered list shows, in its order. *)
Definition listed_names (out : outcome response) : list pyval :=
  match out with
  | Ok (TemplateResponse _ context) =>
      match Dict.get "reviews" context with
      | VList reviews =>
          map (fun r => match r with
                        | VDict d => Dict.get "name" d
                        | _ => VNone
                        end) reviews
      | _ => []
      end
  | _ => []
  end.

End Stub.

Section API.

(** *** The interpreter and the libraries *)

(** [datetime.fromisoformat]; [None] is [ValueError]. *)
Variable fromisoformat : string -> option datetime.

(** *** Utilidades *)

Definition parse_session_datetime (value : pyval) : option datetime :=
  match value with
  | VDatetime d => Some d
  | VStr s => fromisoformat s
  | _ => None
  end.

(** The expiry both session readers compute from [token_exp]. *)
Definition session_expiry (w : world) : option datetime :=
  parse_session_datetime (Dict.get "token_exp" (session w)).

(** [now] is the reading of [datetime.now(timezone.utc)]. *)
Definition get_session_user (now : Z) : M pyval :=
  s <- gets session ;;
  let token_exp := parse_session_datetime (Dict.get "token_exp" s) in
  match token_exp with
  | Some d =>
      match datetime_ge now d with
      | None => raise "TypeError"
      | Some true =>
          modify (fun w => with_session (Dict.clear (session w)) w) ;;;
          ret VNone
      | Some false => gets (fun w => Dict.get "user" (session w))
      end
  | None => gets (fun w => Dict.get "user" (session w))
  end.

Definition require_user (now : Z) : M pydict :=
  user <- gets (fun w => Dict.get "user" (session w)) ;;
  token <- gets (fun w => Dict.get "token" (session w)) ;;
  s <- gets session ;;
  let token_exp := parse_session_datetime (Dict.get "token_exp" s) in
  if negb (truthy user) || negb (truthy token) then
    raise_http 401 "No autenticado"
  else
    expired <-
      match token_exp with
      | Some d =>
          match datetime_ge now d with
          | None => raise "TypeError"
          | Some b => ret b
          end
      | None => ret false
      end ;;
    if (expired : bool) then
      modify (fun w => with_session (Dict.clear (session w)) w) ;;;
      raise_http 401 "Token OAuth caducado"
    else
      match user with
      | VDict u =>
          iat <- gets (fun w =>
                   parse_session_datetime (Dict.get "token_iat" (session w))) ;;
          ret (Dict.set "exp" (of_option_datetime token_exp)
                 (Dict.set "iat" (of_option_datetime iat)
                    (Dict.set "token" token u)))
      | _ => raise "TypeError"
      end.

(** *** Geocoder *)

(** [requests.get(url, params={"q": address, ...}, timeout=10)] followed
    by [raise_for_status()] and [json()]: the decoded body, or the
    exception one of the three raised. *)
Variable nominatim_search : string -> reply.

(** [float(s)] on a string and on an integer; [None] is [ValueError],
    respectively [OverflowError]. *)
Variable float_of_str : string -> option float64.
Variable float_of_int : Z -> option float64.

(** [float(v)] *)
Definition py_float (v : pyval) : outcome float64 :=
  match v with
  | VFloat f => Ok f
  | VStr s =>
      match float_of_str s with Some f => Ok f | None => Raise "ValueError" end
  | VInt n =>
      match float_of_int n with Some f => Ok f | None => Raise "OverflowError" end
  | VBool b =>
      match float_of_int (if b then 1 else 0) with
      | Some f => Ok f
      | None => Raise "OverflowError"
      end
  | _ => Raise "TypeError"
  end.

Definition geocode_address (address : string) : M (pyval * pyval) :=
  modify (log_call (GeocodeCall address)) ;;;
  match nominatim_search address with
  | Failed e => raise e
  | Replied data =>
      if negb (truthy data) then ret (VNone, VNone)
      else
        first <- lift (py_first data) ;;
        lat_raw <- lift (py_getitem "lat" first) ;;
        lat <- lift (py_float lat_raw) ;;
        first' <- lift (py_first data) ;;
        lon_raw <- lift (py_getitem "lon" first') ;;
        lon <- lift (py_float lon_raw) ;;
        ret (VFloat lat, VFloat lon)
  end.

(** *** Serialization *)

(** [str(o)] for an [ObjectId], and [str] on the values this file
    gives no rule for. *)
Variable ObjectId_str : ObjectId -> string.
Variable py_repr : pyval -> string.

Definition py_str (v : pyval) : string :=
  match v with
  | VNone => "None"
  | VStr s => s
  | VObjectId o => ObjectId_str o
  | _ => py_repr v
  end.

Definition serialize_review (doc : pydict) : pydict :=
  [ ("id", VStr (py_str (Dict.get "_id" doc)));
    ("name", Dict.get "name" doc);
    ("address", Dict.get "address" doc);
    ("latitude", Dict.get "latitude" doc);
    ("longitude", Dict.get "longitude" doc);
    ("rating", Dict.get "rating" doc);
    ("author_email", Dict.get "author_email" doc);
    ("author_name", Dict.get "author_name" doc);
    ("token", Dict.get "token" doc);
    ("token_issued_at", Dict.get "token_issued_at" doc);
    ("token_expires_at", Dict.get "token_expires_at" doc);
    ("images", Dict.get_default "images" (VList []) doc);
    ("created_at", Dict.get "created_at" doc) ].

(** *** Media uploader *)

(** [cloudinary.uploader.upload(file.file, folder="reviews",
    resource_type="auto")]: the result, or the exception raised. *)
Variable cloudinary_upload : UploadFile -> reply.

(** [not file.filename] *)
Definition has_filename (f : UploadFile) : bool :=
  match filename f with
  | Some n => negb (String.eqb n "")
  | None => false
  end.

(** The body of [for file in files], with the list built so far. *)
Fixpoint upload_each (files : list (option UploadFile))
    (uploaded_urls : list pyval) : M (list pyval) :=
  match files with
  | [] => ret uploaded_urls
  | file :: rest =>
      match file with
      | None => upload_each rest uploaded_urls
      | Some f =>
          if negb (has_filename f) then upload_each rest uploaded_urls
          else
            modify (log_call (UploadCall f)) ;;;
            match cloudinary_upload f with
            | Failed e => raise e
            | Replied result =>
                secure_url <- lift (py_get "secure_url" result) ;;
                if truthy secure_url
                then upload_each rest (uploaded_urls ++ [secure_url])
                else upload_each rest uploaded_urls
            end
      end
  end.

(** The files the loop does not skip, in order. *)
Definition accepted (files : list (option UploadFile)) : list UploadFile :=
  flat_map (fun file =>
              match file with
              | Some f => if has_filename f then [f] else []
              | None => []
              end) files.

(** The entry an accepted upload leaves in [uploaded_urls]. *)
Definition returned_url (f : UploadFile) : list pyval :=
  match cloudinary_upload f with
  | Replied (VDict d) =>
      if truthy (Dict.get "secure_url" d) then [Dict.get "secure_url" d] else []
  | _ => []
  end.

Definition upload_images (files : option (list (option UploadFile)))
    : M (list pyval) :=
  match files with
  | None => ret []
  | Some [] => ret []
  | Some fs => upload_each fs []
  end.

(** *** The collection *)

(** [ObjectId(s)]; [None] is [InvalidId]. *)
Variable ObjectId_of_str : string -> option ObjectId.

(** The identifier the driver generates for a document without [_id]. *)
Variable new_ObjectId : world -> ObjectId.

Definition has_id (o : ObjectId) (doc : pydict) : bool :=
  match Dict.lookup "_id" doc with
  | Some (VObjectId o') => N.eqb o o'
  | _ => false
  end.

(** [reviews_collection.find_one({"_id": o})].  The driver is taken to
    answer: a lost connection is outside this model. *)
Definition find_one (o : ObjectId) : M (option pydict) :=
  gets (fun w => find (has_id o) (reviews_collection w)).

(** [reviews_collection.insert_one(doc)] for a [doc] without [_id]: the
    driver adds one, the unique index on [_id] refuses a duplicate, and
    the collection keeps the document as BSON holds it.  Returns
    [inserted_id]. *)
Definition insert_one (doc : pydict) : M ObjectId :=
  w <- gets (fun w => w) ;;
  let oid := new_ObjectId w in
  if existsb (has_id oid) (reviews_collection w) then raise "DuplicateKeyError"
  else
    let stored := ("_id", VObjectId oid) :: bson_document doc in
    modify (fun w =>
      log_call (InsertCall stored)
        (with_collection (reviews_collection w ++ [stored]) w)) ;;;
    ret oid.

(** *** Login and logout *)

(** The configured OAuth client identifier. *)
Variable CLIENT_ID : string.

(** [id_token.verify_oauth2_token(token, google_requests.Request(),
    CLIENT_ID)]: the claims, or [None] for any exception. *)
Variable verify_oauth2_token : pyval -> option pydict.

(** [datetime.fromtimestamp(v, tz=timezone.utc)]: the date, or the class
    of the exception. *)
Variable fromtimestamp : pyval -> datetime + string.

(** [d.isoformat()] *)
Variable isoformat : datetime -> string.

Definition parse_token_times (id_info : pydict)
    : outcome (option datetime * option datetime) :=
  let issued := Dict.get "iat" id_info in
  let expires := Dict.get "exp" id_info in
  let convert (v : pyval) : outcome (option datetime) :=
    if is_None v then Ok None
    else match fromtimestamp v with
         | inl d => Ok (Some d)
         | inr e => Raise e
         end in
  match convert issued with
  | Ok issued_dt =>
      match convert expires with
      | Ok expires_dt => Ok (issued_dt, expires_dt)
      | HTTPException c d => HTTPException c d
      | Raise e => Raise e
      end
  | HTTPException c d => HTTPException c d
  | Raise e => Raise e
  end.

(** [request.session[k] = v] *)
Definition session_set (k : string) (v : pyval) : M unit :=
  modify (fun w => with_session (Dict.set k v (session w)) w).

Definition isoformat_or_None (o : option datetime) : pyval :=
  match o with Some d => VStr (isoformat d) | None => VNone end.

Definition login (data : pydict) : M response :=
  let token := Dict.get "token" data in
  if negb (truthy token) then raise_http 400 "Token requerido"
  else
    match verify_oauth2_token token with
    | None => raise_http 401 "Token inválido"
    | Some id_info =>
        '(issued_dt, expires_dt) <- lift (parse_token_times id_info) ;;
        let user_info :=
          [ ("google_id", Dict.get "sub" id_info);
            ("email", Dict.get "email" id_info);
            ("name", Dict.get "name" id_info);
            ("picture", Dict.get "picture" id_info) ] in
        session_set "user" (VDict user_info) ;;;
        session_set "token" token ;;;
        session_set "token_iat" (isoformat_or_None issued_dt) ;;;
        session_set "token_exp" (isoformat_or_None expires_dt) ;;;
        ret (RedirectResponse "/reviews" 303)
    end.

Definition logout : M response :=
  modify (fun w => with_session (Dict.clear (session w)) w) ;;;
  ret (RedirectResponse "/" 303).

(** The sessions the handlers leave behind: an empty one (no cookie yet,
    or cleared by [logout], [get_session_user] or [require_user]), or what
    a successful [login] makes of such a session.  Nothing else in the
    file writes to [request.session]. *)
Inductive handler_written : pydict -> Prop :=
| written_empty : handler_written []
| written_login (data : pydict) (w w' : world) (r : response) :
    handler_written (session w) ->
    login data w = (Ok r, w') ->
    handler_written (session w').

(** *** Vistas *)

(** [Depends(dep)]: the dependency runs first and its value becomes an
    argument of the handler; an exception of the dependency is the answer. *)
Definition Depends {A B : Type} (dep : M A) (handler : A -> M B) : M B :=
  bind dep handler.

(** The template context is given without its ["request"] entry. *)
Definition home (user : pyval) : M response :=
  if truthy user then ret (RedirectResponse "/reviews" 303)
  else ret (TemplateResponse "index.html"
              [ ("client_id", VStr CLIENT_ID); ("user", user) ]).

(** [r["id"] == selected] on a serialized review. *)
Definition id_is (selected : string) (r : pydict) : bool :=
  match Dict.lookup "id" r with
  | Some (VStr s) => String.eqb s selected
  | _ => false
  end.

(** The template context is given without its ["request"] entry. *)
Definition list_reviews (selected : option string) (user : pydict)
    : M response :=
  docs <- gets (fun w => find_sort_created_at_desc (reviews_collection w)) ;;
  let reviews := map serialize_review docs in
  selected_review <-
    match selected with
    | Some sel =>
        if truthy (VStr sel) then
          match find (id_is sel) reviews with
          | Some r => ret (VDict r)
          | None =>
              (* try: ... except Exception: selected_review = None *)
              match ObjectId_of_str sel with
              | None => ret VNone
              | Some o =>
                  db_review <- find_one o ;;
                  match db_review with
                  | Some doc =>
                      if truthy (VDict doc)
                      then ret (VDict (serialize_review doc))
                      else ret VNone
                  | None => ret VNone
                  end
              end
          end
        else ret VNone
    | None => ret VNone
    end ;;
  ret (TemplateResponse "mapa.html"
         [ ("user", VDict user);
           ("reviews", VList (map VDict reviews));
           ("selected_review", selected_review) ]).

(** [now] is the reading of [datetime.now(timezone.utc)] that becomes
    [created_at]. *)
Definition create_review (name address : string) (rating : Z)
    (images : option (list (option UploadFile))) (user : pydict) (now : Z)
    : M response :=
  if (rating <? 0) || (rating >? 5) then
    raise_http 400 "La valoración debe estar entre 0 y 5"
  else
    '(lat, lon) <- geocode_address address ;;
    if is_None lat || is_None lon then
      raise_http 400 "No se pudo geocodificar la dirección"
    else
      uploaded_urls <- upload_images images ;;
      author_email <- lift (py_getitem "email" (VDict user)) ;;
      let review_doc :=
        [ ("name", VStr name);
          ("address", VStr address);
          ("latitude", lat);
          ("longitude", lon);
          ("rating", VInt rating);
          ("author_email", author_email);
          ("author_name", Dict.get "name" user);
          ("token", Dict.get "token" user);
          ("token_issued_at", Dict.get "iat" user);
          ("token_expires_at", Dict.get "exp" user);
          ("images", VList uploaded_urls);
          ("created_at", VDatetime (mk_datetime now true)) ] in
      inserted_id <- insert_one review_doc ;;
      let review_id := py_str (VObjectId inserted_id) in
      ret (RedirectResponse ("/reviews?selected=" ++ review_id)%string 303).

Definition get_review (review_id : string) (user : pydict) : M response :=
  match ObjectId_of_str review_id with
  | None => raise_http 400 "Identificador inválido"
  | Some o =>
      db_review <- find_one o ;;
      match db_review with
      | Some doc =>
          if negb (truthy (VDict doc)) then
            raise_http 404 "Reseña no encontrada"
          else ret (JSONResponse (VDict (serialize_review doc)))
      | None => raise_http 404 "Reseña no encontrada"
      end
  end.

(** *** The routes, with their dependencies

    [now] is the clock as the dependency reads it, [now'] as the handler
    does. *)

Definition GET_home (now : Z) : M response :=
  Depends (get_session_user now) home.

Definition GET_reviews (now : Z) (selected : option string) : M response :=
  Depends (require_user now) (list_reviews selected).

Definition POST_reviews (now now' : Z) (name address : string) (rating : Z)
    (images : option (list (option UploadFile))) : M response :=
  Depends (require_user now)
    (fun user => create_review name address rating images user now').

Definition GET_review (now : Z) (review_id : string) : M response :=
  Depends (require_user now) (get_review review_id).

(** ** Properties *)

(** *** Dictionaries *)

Lemma lookup_set_same (k : string) (v : pyval) (d : pydict) :
  Dict.lookup k (Dict.set k v d) = Some v.
Proof.
  induction d as [|[k' v'] d IH]; simpl.
  - rewrite String.eqb_refl. reflexivity.
  - destruct (String.eqb k k') eqn:E; simpl.
    + rewrite String.eqb_refl. reflexivity.
    + rewrite E. exact IH.
Qed.

Lemma lookup_set_other (k k' : string) (v : pyval) (d : pydict) :
  k <> k' -> Dict.lookup k (Dict.set k' v d) = Dict.lookup k d.
Proof.
  intros Hne. apply String.eqb_neq in Hne.
  induction d as [|[k'' v''] d IH]; simpl.
  - rewrite Hne. reflexivity.
  - destruct (String.eqb k' k'') eqn:E; simpl.
    + apply String.eqb_eq in E. subst k''. rewrite Hne. reflexivity.
    + destruct (String.eqb k k''); [reflexivity|exact IH].
Qed.

Lemma get_set_same (k : string) (v : pyval) (d : pydict) :
  Dict.get k (Dict.set k v d) = v.
Proof. unfold Dict.get. rewrite lookup_set_same. reflexivity. Qed.

Lemma get_set_other (k k' : string) (v : pyval) (d : pydict) :
  k <> k' -> Dict.get k (Dict.set k' v d) = Dict.get k d.
Proof. intros H. unfold Dict.get. rewrite lookup_set_other by exact H. reflexivity. Qed.

(** *** Session *)

Lemma session_expiry_unfold (w : world) :
  parse_session_datetime (Dict.get "token_exp" (session w)) = session_expiry w.
Proof. reflexivity. Qed.

Lemma get_session_user_run (now : Z) (w : world) :
  get_session_user now w =
    match session_expiry w with
    | Some d =>
        match datetime_ge now d with
        | None => (Raise "TypeError", w)
        | Some true => (Ok VNone, with_session [] w)
        | Some false => (Ok (Dict.get "user" (session w)), w)
        end
    | None => (Ok (Dict.get "user" (session w)), w)
    end.
Proof.
  unfold get_session_user, session_expiry. run.
  destruct (parse_session_datetime _) as [d|]; [|reflexivity].
  destruct (datetime_ge now d) as [[|]|]; reflexivity.
Qed.

Lemma require_user_no_credentials (now : Z) (w : world) :
  truthy (Dict.get "user" (session w)) = false \/
  truthy (Dict.get "token" (session w)) = false ->
  require_user now w = (HTTPException 401 "No autenticado", w).
Proof.
  intros H. unfold require_user. run.
  destruct H as [H|H]; rewrite H; simpl; [reflexivity|].
  rewrite orb_true_r. reflexivity.
Qed.

Lemma require_user_expired (now : Z) (w : world) (d : datetime) :
  truthy (Dict.get "user" (session w)) = true ->
  truthy (Dict.get "token" (session w)) = true ->
  session_expiry w = Some d -> aware d = true -> timestamp d <= now ->
  require_user now w =
    (HTTPException 401 "Token OAuth caducado", with_session [] w).
Proof.
  intros Hu Ht He Ha Hle. unfold require_user. run.
  rewrite Hu, Ht. simpl. rewrite session_expiry_unfold, He.
  unfold datetime_ge. rewrite Ha.
  apply Z.leb_le in Hle. rewrite Hle. reflexivity.
Qed.

Lemma require_user_status (now : Z) (w w' : world) (c : Z) (detail : string) :
  require_user now w = (HTTPException c detail, w') -> c = 401.
Proof.
  unfold require_user. run.
  destruct (negb _ || negb _); [intros H; inversion H; reflexivity|].
  rewrite session_expiry_unfold.
  destruct (session_expiry w) as [d|].
  - destruct (datetime_ge now d) as [[|]|]; simpl.
    + intros H; inversion H; reflexivity.
    + destruct (Dict.get "user" (session w)); discriminate.
    + discriminate.
  - destruct (Dict.get "user" (session w)); discriminate.
Qed.

(** A handler behind [Depends(require_user)] is entered with the
    credentials of the session, in a world the dependency has not touched;
    without them the route answers what the dependency raised. *)
Lemma require_user_keeps_world (now : Z) (w w' : world) (user : pydict) :
  require_user now w = (Ok user, w') -> w' = w.
Proof.
  unfold require_user. run.
  destruct (negb _ || negb _); [discriminate|].
  rewrite session_expiry_unfold.
  destruct (session_expiry w) as [d|].
  - destruct (datetime_ge now d) as [[|]|]; simpl; try discriminate.
    destruct (Dict.get "user" (session w)); try discriminate.
    intros H. inversion H. reflexivity.
  - destruct (Dict.get "user" (session w)); try discriminate.
    intros H. inversion H. reflexivity.
Qed.

Lemma Depends_authenticated {B : Type} (now : Z) (handler : pydict -> M B)
    (w w' : world) (user : pydict) :
  require_user now w = (Ok user, w') ->
  Depends (require_user now) handler w = handler user w.
Proof.
  intros H. unfold Depends, bind.
  rewrite (require_user_keeps_world _ _ _ _ H) in H. rewrite H. reflexivity.
Qed.

Lemma Depends_unauthenticated {B : Type} (now : Z) (handler : pydict -> M B)
    (w w' : world) (c : Z) (detail : string) :
  require_user now w = (HTTPException c detail, w') ->
  Depends (require_user now) handler w = (HTTPException 401 detail, w').
Proof.
  intros H. unfold Depends, bind.
  rewrite (require_user_status _ _ _ _ _ H) in H. rewrite H. reflexivity.
Qed.

(** After a successful [login] the session carries user claims and a
    token, so [require_user] does not take its first exit. *)
Lemma login_establishes (data : pydict) (w w' : world) (r : response) :
  login data w = (Ok r, w') ->
  truthy (Dict.get "user" (session w')) = true /\
  truthy (Dict.get "token" (session w')) = true.
Proof.
  unfold login.
  destruct (truthy (Dict.get "token" data)) eqn:Ht; [|discriminate].
  cbn [negb]. destruct (verify_oauth2_token _) as [id_info|]; [|discriminate].
  unfold bind at 1, lift.
  destruct (parse_token_times id_info) as [[issued_dt expires_dt]| |];
    try discriminate.
  unfold session_set. run. intros H. inversion H. subst. clear H. simpl.
  split.
  - do 3 (rewrite get_set_other by discriminate).
    rewrite get_set_same. reflexivity.
  - do 2 (rewrite get_set_other by discriminate).
    rewrite get_set_same. exact Ht.
Qed.

(** *** The sessions the handlers write *)

Lemma login_ok_inv (data : pydict) (w w' : world) (r : response) :
  login data w = (Ok r, w') ->
  exists id_info issued_dt expires_dt,
    truthy (Dict.get "token" data) = true /\
    parse_token_times id_info = Ok (issued_dt, expires_dt) /\
    w' =
      with_session
        (Dict.set "token_exp" (isoformat_or_None expires_dt)
           (Dict.set "token_iat" (isoformat_or_None issued_dt)
              (Dict.set "token" (Dict.get "token" data)
                 (Dict.set "user"
                    (VDict [ ("google_id", Dict.get "sub" id_info);
                             ("email", Dict.get "email" id_info);
                             ("name", Dict.get "name" id_info);
                             ("picture", Dict.get "picture" id_info) ])
                    (session w))))) w.
Proof.
  unfold login.
  destruct (truthy (Dict.get "token" data)) eqn:Ht; [|discriminate].
  cbn [negb]. destruct (verify_oauth2_token _) as [id_info|]; [|discriminate].
  unfold bind at 1, lift.
  destruct (parse_token_times id_info) as [[issued_dt expires_dt]| |] eqn:Hp;
    try discriminate.
  unfold session_set. run. intros H. inversion H. subst.
  exists id_info, issued_dt, expires_dt.
  split; [reflexivity|]. split; [exact Hp|reflexivity].
Qed.

Lemma handler_written_shape (s : pydict) :
  handler_written s ->
  s = [] \/
  exists user_info token id_info issued_dt expires_dt,
    user_info <> [] /\ truthy token = true /\
    parse_token_times id_info = Ok (issued_dt, expires_dt) /\
    s = [ ("user", VDict user_info);
          ("token", token);
          ("token_iat", isoformat_or_None issued_dt);
          ("token_exp", isoformat_or_None expires_dt) ].
Proof.
  induction 1 as [|data w w' r _ IH Hrun]; [left; reflexivity|].
  right.
  destruct (login_ok_inv _ _ _ _ Hrun)
    as (id_info & issued_dt & expires_dt & Ht & Hp & ->).
  eexists _, _, id_info, issued_dt, expires_dt.
  split; [|split; [exact Ht|split; [exact Hp|]]].
  2:{ simpl session.
      destruct IH as [->|(u0 & t0 & i0 & is0 & e0 & _ & _ & _ & ->)];
        reflexivity. }
  discriminate.
Qed.

Lemma parse_token_times_aware (id_info : pydict)
    (issued_dt : option datetime) (d : datetime) :
  (forall v d', fromtimestamp v = inl d' -> aware d' = true) ->
  parse_token_times id_info = Ok (issued_dt, Some d) -> aware d = true.
Proof.
  intros Haware. unfold parse_token_times.
  destruct (is_None (Dict.get "iat" id_info)).
  - destruct (is_None (Dict.get "exp" id_info)); [discriminate|].
    destruct (fromtimestamp (Dict.get "exp" id_info)) as [d'|e] eqn:He;
      [|discriminate].
    intros H. inversion H. subst. exact (Haware _ _ He).
  - destruct (fromtimestamp (Dict.get "iat" id_info)); [|discriminate].
    destruct (is_None (Dict.get "exp" id_info)); [discriminate|].
    destruct (fromtimestamp (Dict.get "exp" id_info)) as [d'|e] eqn:He;
      [|discriminate].
    intros H. inversion H. subst. exact (Haware _ _ He).
Qed.

(** C3: on every session the handlers write, be it empty or opened by
    [login], [get_session_user] returns the stored user claims if they
    are present and the stored expiry is absent or still in the future,
    and otherwise clears the session and returns absent; a session whose
    expiry equals or precedes the current time is answered like no
    session, with nothing from [get_session_user] and 401 from
    [require_user].  [fromtimestamp] with a time zone is taken to return
    offset-aware dates, and [fromisoformat] to read back what [isoformat]
    wrote for them. *)
Theorem get_session_user_written (now : Z) (w : world) :
  handler_written (session w) ->
  (forall v d, fromtimestamp v = inl d -> aware d = true) ->
  (forall d, aware d = true -> fromisoformat (isoformat d) = Some d) ->
  ((Dict.get "user" (session w) <> VNone /\
    (Dict.get "token_exp" (session w) = VNone \/
     exists d, session_expiry w = Some d /\ now < timestamp d)) ->
   get_session_user now w = (Ok (Dict.get "user" (session w)), w)) /\
  (~ (Dict.get "user" (session w) <> VNone /\
      (Dict.get "token_exp" (session w) = VNone \/
       exists d, session_expiry w = Some d /\ now < timestamp d)) ->
   get_session_user now w = (Ok VNone, with_session [] w)) /\
  (forall d, session_expiry w = Some d -> timestamp d <= now ->
     get_session_user now w = (Ok VNone, with_session [] w) /\
     exists detail w', require_user now w = (HTTPException 401 detail, w')) /\
  (session w = [] ->
     get_session_user now w = (Ok VNone, w) /\
     require_user now w = (HTTPException 401 "No autenticado", w)).
Proof.
  intros Hw Haware Hiso.
  destruct (handler_written_shape _ Hw)
    as [Hs|(u & tok & id_info & issued_dt & expires_dt
            & Hu & Htok & Hp & Hs)].
  - (* no session *)
    assert (Hrun : get_session_user now w = (Ok VNone, w)).
    { rewrite get_session_user_run. unfold session_expiry. rewrite Hs.
      reflexivity. }
    assert (Hcleared : with_session [] w = w).
    { destruct w as [s c l]. simpl in Hs. subst s. reflexivity. }
    assert (H401 : require_user now w =
                   (HTTPException 401 "No autenticado", w)).
    { apply require_user_no_credentials. rewrite Hs. left. reflexivity. }
    split; [|split; [|split]].
    + intros _. rewrite Hrun, Hs. reflexivity.
    + intros _. rewrite Hcleared. exact Hrun.
    + intros d Hd. unfold session_expiry in Hd. rewrite Hs in Hd.
      discriminate.
    + intros _. split; [exact Hrun|exact H401].
  - (* a session opened by login *)
    assert (Huser : Dict.get "user" (session w) = VDict u)
      by (rewrite Hs; reflexivity).
    assert (Htoken : Dict.get "token" (session w) = tok)
      by (rewrite Hs; reflexivity).
    assert (Hexp : Dict.get "token_exp" (session w) =
                   isoformat_or_None expires_dt)
      by (rewrite Hs; reflexivity).
    destruct expires_dt as [d|].
    + assert (Ha : aware d = true)
        by exact (parse_token_times_aware _ _ _ Haware Hp).
      assert (He : session_expiry w = Some d).
      { unfold session_expiry. rewrite Hexp. simpl. apply Hiso. exact Ha. }
      rewrite get_session_user_run, He. unfold datetime_ge. rewrite Ha.
      split; [|split; [|split]].
      * intros [_ [Habs|(d' & Hd' & Hlt)]].
        -- rewrite Hexp in Habs. discriminate.
        -- inversion Hd'. subst d'. apply Z.leb_gt in Hlt. rewrite Hlt.
           reflexivity.
      * intros Hnot. destruct (timestamp d <=? now) eqn:Hle; [reflexivity|].
        exfalso. apply Hnot. split; [rewrite Huser; discriminate|].
        right. exists d. split; [reflexivity|apply Z.leb_gt; exact Hle].
      * intros d' Hd' Hle. inversion Hd'. subst d'.
        pose proof Hle as Hle'. apply Z.leb_le in Hle'. rewrite Hle'.
        split; [reflexivity|].
        eexists _, _. apply (require_user_expired now w d); try assumption.
        -- rewrite Huser. destruct u; [contradiction|reflexivity].
        -- rewrite Htoken. exact Htok.
      * intros Hnil. rewrite Hnil in Hs. discriminate.
    + assert (He : session_expiry w = None).
      { unfold session_expiry. rewrite Hexp. reflexivity. }
      rewrite get_session_user_run, He.
      split; [|split; [|split]].
      * intros _. reflexivity.
      * intros Hnot. exfalso. apply Hnot.
        split; [rewrite Huser; discriminate|left; exact Hexp].
      * intros d Hd. discriminate.
      * intros Hnil. rewrite Hnil in Hs. discriminate.
Qed.

(** C4 (as amended): [require_user] fails with status 401 whenever no
    valid session exists; a session without user claims or token is
    refused with the detail "No autenticado" and left as it is, an
    expired one with the detail "Token OAuth caducado" after being
    cleared, and no other status is ever raised. *)
Theorem require_user_unauthenticated (now : Z) (w : world) :
  (truthy (Dict.get "user" (session w)) = false \/
   truthy (Dict.get "token" (session w)) = false ->
     require_user now w = (HTTPException 401 "No autenticado", w)) /\
  (forall d,
     truthy (Dict.get "user" (session w)) = true ->
     truthy (Dict.get "token" (session w)) = true ->
     session_expiry w = Some d -> aware d = true -> timestamp d <= now ->
     require_user now w =
       (HTTPException 401 "Token OAuth caducado", with_session [] w)) /\
  (forall status_code detail w',
     require_user now w = (HTTPException status_code detail, w') ->
     status_code = 401).
Proof.
  split; [apply require_user_no_credentials|].
  split; [apply require_user_expired|].
  intros c detail w'. apply require_user_status.
Qed.

(** *** Creating a review *)

Lemma geocode_address_world (address : string) (w : world) :
  snd (geocode_address address w) = log_call (GeocodeCall address) w.
Proof.
  unfold geocode_address. run.
  destruct (nominatim_search address) as [data|e]; [|reflexivity].
  destruct (truthy data); simpl; [|reflexivity].
  destruct (py_first data) as [x| |]; simpl; try reflexivity.
  destruct (py_getitem "lat" x) as [la| |]; simpl; try reflexivity.
  destruct (py_float la); simpl; try reflexivity.
  destruct (py_getitem "lon" x) as [lo| |]; simpl; try reflexivity.
  destruct (py_float lo); reflexivity.
Qed.

Lemma geocode_address_no_result (address : string) (data : pyval) (w : world) :
  nominatim_search address = Replied data -> truthy data = false ->
  geocode_address address w =
    (Ok (VNone, VNone), log_call (GeocodeCall address) w).
Proof.
  intros Hr Hd. unfold geocode_address. run. rewrite Hr, Hd. reflexivity.
Qed.

Lemma py_first_not_http (v : pyval) (c : Z) (d : string) :
  py_first v <> HTTPException c d.
Proof. destruct v as [| | | |[|? ?]| | |[|? ?]|]; discriminate. Qed.

Lemma py_getitem_not_http (k : string) (v : pyval) (c : Z) (d : string) :
  py_getitem k v <> HTTPException c d.
Proof.
  destruct v; try discriminate. simpl. destruct (Dict.lookup k d0); discriminate.
Qed.

Lemma py_float_not_http (v : pyval) (c : Z) (d : string) :
  py_float v <> HTTPException c d.
Proof.
  destruct v; simpl; try discriminate.
  - destruct (float_of_int _); discriminate.
  - destruct (float_of_int _); discriminate.
  - destruct (float_of_str _); discriminate.
Qed.

(** What the geocoder client hands back: both coordinates absent, both
    floats, or an exception of the client; never an [HTTPException]. *)
Lemma geocode_address_result (address : string) (w : world) :
  fst (geocode_address address w) = Ok (VNone, VNone) \/
  (exists lat lon, fst (geocode_address address w) = Ok (VFloat lat, VFloat lon)) \/
  (exists e, fst (geocode_address address w) = Raise e).
Proof.
  unfold geocode_address. run.
  destruct (nominatim_search address) as [data|e]; [|right; right; simpl; eauto].
  destruct (truthy data); simpl; [|left; reflexivity].
  destruct (py_first data) as [x| |] eqn:H1; simpl;
    [|exfalso; eapply py_first_not_http; eassumption|right; right; simpl; eauto].
  destruct (py_getitem "lat" x) as [la| |] eqn:H2; simpl;
    [|exfalso; eapply py_getitem_not_http; eassumption|right; right; simpl; eauto].
  destruct (py_float la) as [lat| |] eqn:H3; simpl;
    [|exfalso; eapply py_float_not_http; eassumption|right; right; simpl; eauto].
  destruct (py_getitem "lon" x) as [lo| |] eqn:H4; simpl;
    [|exfalso; eapply py_getitem_not_http; eassumption|right; right; simpl; eauto].
  destruct (py_float lo) as [lon| |] eqn:H5; simpl;
    [|exfalso; eapply py_float_not_http; eassumption|right; right; simpl; eauto].
  right; left; simpl; eauto.
Qed.

(** The uploader talks to the media host only: the collection and the
    session are as before. *)
Lemma upload_each_collection (files : list (option UploadFile)) :
  forall (acc : list pyval) (w : world),
    reviews_collection (snd (upload_each files acc w)) = reviews_collection w.
Proof.
  induction files as [|file rest IH]; intros acc w; simpl; [reflexivity|].
  destruct file as [f|]; [|apply IH].
  destruct (has_filename f); simpl; [|apply IH]. run.
  destruct (cloudinary_upload f) as [result|e]; [|reflexivity].
  destruct (py_get "secure_url" result) as [u| |]; simpl; try reflexivity.
  destruct (truthy u); rewrite IH; reflexivity.
Qed.

Lemma upload_images_collection (files : option (list (option UploadFile)))
    (w : world) :
  reviews_collection (snd (upload_images files w)) = reviews_collection w.
Proof.
  destruct files as [[|file rest]|]; try reflexivity.
  apply upload_each_collection.
Qed.

(** Every run of [create_review] leaves the collection alone or appends
    one document, whose coordinates are floats. *)
Lemma create_review_persists_coordinates (name address : string) (rating : Z)
    (images : option (list (option UploadFile))) (user : pydict) (now : Z)
    (w : world) (out : outcome response) (w' : world) :
  create_review name address rating images user now w = (out, w') ->
  reviews_collection w' = reviews_collection w \/
  exists stored lat lon,
    reviews_collection w' = reviews_collection w ++ [stored] /\
    Dict.get "latitude" stored = VFloat lat /\
    Dict.get "longitude" stored = VFloat lon.
Proof.
  intros Hrun. unfold create_review in Hrun.
  destruct ((rating <? 0) || (rating >? 5));
    [inversion Hrun; left; reflexivity|].
  unfold bind at 1 in Hrun.
  pose proof (geocode_address_world address w) as Hw.
  pose proof (geocode_address_result address w) as Hr.
  destruct (geocode_address address w) as [o w1]. simpl in Hw, Hr. subst w1.
  destruct Hr as [->|[(lat & lon & ->)|(e & ->)]];
    [inversion Hrun; left; reflexivity| |inversion Hrun; left; reflexivity].
  cbn [is_None orb] in Hrun. unfold bind at 1 in Hrun.
  pose proof (upload_images_collection images (log_call (GeocodeCall address) w))
    as Hu.
  destruct (upload_images images _) as [[urls|c d|e] w2]; simpl in Hu;
    [|inversion Hrun; subst; left; exact Hu
     |inversion Hrun; subst; left; exact Hu].
  unfold bind at 1, lift in Hrun.
  destruct (py_getitem "email" (VDict user)) as [email|c d|e];
    [|inversion Hrun; subst; left; exact Hu
     |inversion Hrun; subst; left; exact Hu].
  unfold insert_one in Hrun. run.
  destruct (existsb _ (reviews_collection w2)); simpl in Hrun;
    inversion Hrun; subst; [left; exact Hu|].
  right. eexists _, lat, lon. simpl. rewrite Hu. repeat split.
Qed.

(** C1: when the geocoder has no result for the submitted address,
    [create_review] answers 400 and the collection is as before, the
    geocoder request being the only outbound call it can have made; and
    no run of [create_review] stores
    a review whose latitude or longitude is absent. *)
Theorem create_review_geocode_no_result (name address : string) (rating : Z)
    (images : option (list (option UploadFile))) (user : pydict) (now : Z)
    (w : world) (data : pyval) :
  nominatim_search address = Replied data -> truthy data = false ->
  (exists detail w',
     create_review name address rating images user now w =
       (HTTPException 400 detail, w') /\
     reviews_collection w' = reviews_collection w /\
     (calls w' = calls w \/ calls w' = calls w ++ [GeocodeCall address])) /\
  (forall name' address' rating' images' user' now' w0 out w1,
     create_review name' address' rating' images' user' now' w0 = (out, w1) ->
     reviews_collection w1 = reviews_collection w0 \/
     exists stored lat lon,
       reviews_collection w1 = reviews_collection w0 ++ [stored] /\
       Dict.get "latitude" stored = VFloat lat /\
       Dict.get "longitude" stored = VFloat lon).
Proof.
  intros Hr Hd.
  split; [|intros; eapply create_review_persists_coordinates; eassumption].
  unfold create_review.
  destruct ((rating <? 0) || (rating >? 5)).
  - eexists _, w. split; [reflexivity|]. split; [reflexivity|left; reflexivity].
  - unfold bind at 1.
    rewrite (geocode_address_no_result address data w Hr Hd). cbn [is_None orb].
    eexists _, _. split; [reflexivity|]. split; [reflexivity|right; reflexivity].
Qed.

Lemma create_review_bad_rating (name address : string) (rating : Z)
    (images : option (list (option UploadFile))) (user : pydict) (now : Z)
    (w : world) :
  rating < 0 \/ 5 < rating ->
  create_review name address rating images user now w =
    (HTTPException 400 "La valoración debe estar entre 0 y 5", w).
Proof.
  intros H. unfold create_review.
  replace ((rating <? 0) || (rating >? 5)) with true; [reflexivity|].
  symmetry. apply orb_true_iff.
  destruct H as [H|H]; [left; apply Z.ltb_lt|right; apply Z.gtb_gt]; lia.
Qed.

(** C2: [create_review] succeeds only for a rating between 0 and 5; every
    rating outside that range is answered with 400. *)
Theorem create_review_rating_range (name address : string) (rating : Z)
    (images : option (list (option UploadFile))) (user : pydict) (now : Z)
    (w : world) :
  (rating < 0 \/ 5 < rating ->
     exists detail w',
       create_review name address rating images user now w =
         (HTTPException 400 detail, w')) /\
  (forall resp w',
     create_review name address rating images user now w = (Ok resp, w') ->
     0 <= rating <= 5).
Proof.
  split.
  - intros H. eexists _, _. apply create_review_bad_rating. exact H.
  - intros resp w' Hrun.
    destruct (Z_lt_dec rating 0) as [Hlo|Hlo];
      [rewrite create_review_bad_rating in Hrun by (left; exact Hlo);
       discriminate|].
    destruct (Z_lt_dec 5 rating) as [Hhi|Hhi];
      [rewrite create_review_bad_rating in Hrun by (right; exact Hhi);
       discriminate|].
    lia.
Qed.

(** C10: for a rating outside [0,5] the 400 is raised before anything
    else happens: the log of outbound calls holds no new geocoding
    request, upload or insert, and the collection is as before, whatever
    the geocoder, the media host and the driver would have answered. *)
Theorem create_review_rating_checked_first (name address : string)
    (rating : Z) (images : option (list (option UploadFile))) (user : pydict)
    (now : Z) (w : world) :
  rating < 0 \/ 5 < rating ->
  exists detail w',
    create_review name address rating images user now w =
      (HTTPException 400 detail, w') /\
    calls w' = calls w /\
    reviews_collection w' = reviews_collection w.
Proof.
  intros H. eexists _, w.
  split; [apply create_review_bad_rating; exact H|split; reflexivity].
Qed.

(** *** Reading reviews *)

Lemma has_id_nonempty (o : ObjectId) (doc : pydict) :
  has_id o doc = true -> truthy (VDict doc) = true.
Proof. destruct doc; [discriminate|reflexivity]. Qed.

Lemma find_has_id_truthy (o : ObjectId) (c : list pydict) (doc : pydict) :
  find (has_id o) c = Some doc -> truthy (VDict doc) = true.
Proof.
  intros H. apply find_some in H. apply (has_id_nonempty o). apply H.
Qed.

(** C7: [get_review] answers 400 to an identifier [ObjectId] refuses, 404
    to an accepted identifier that no stored review carries, and the
    serialized review otherwise. *)
Theorem get_review_status (review_id : string) (user : pydict) (w : world) :
  (ObjectId_of_str review_id = None ->
     get_review review_id user w =
       (HTTPException 400 "Identificador inválido", w)) /\
  (forall o, ObjectId_of_str review_id = Some o ->
     find (has_id o) (reviews_collection w) = None ->
     get_review review_id user w =
       (HTTPException 404 "Reseña no encontrada", w)) /\
  (forall o doc, ObjectId_of_str review_id = Some o ->
     find (has_id o) (reviews_collection w) = Some doc ->
     get_review review_id user w =
       (Ok (JSONResponse (VDict (serialize_review doc))), w)).
Proof.
  unfold get_review, find_one. repeat split.
  - intros ->. reflexivity.
  - intros o -> Hf. run. rewrite Hf. reflexivity.
  - intros o doc -> Hf. run. rewrite Hf.
    assert (Ht := find_has_id_truthy _ _ _ Hf). simpl in Ht. rewrite Ht.
    reflexivity.
Qed.

(** C9: with a non-empty [selected], [list_reviews] looks the identifier
    up among the serialized reviews it has just read; only when it is not
    there does it ask the collection, and an identifier [ObjectId] refuses
    then gives no selection.  In each case the page is rendered. *)
Theorem list_reviews_selected (sel : string) (user : pydict) (w : world) :
  sel <> "" ->
  let reviews :=
    map serialize_review (find_sort_created_at_desc (reviews_collection w)) in
  exists selected_review,
    list_reviews (Some sel) user w =
      (Ok (TemplateResponse "mapa.html"
             [ ("user", VDict user);
               ("reviews", VList (map VDict reviews));
               ("selected_review", selected_review) ]), w) /\
    (forall r, find (id_is sel) reviews = Some r -> selected_review = VDict r) /\
    (find (id_is sel) reviews = None ->
       (ObjectId_of_str sel = None -> selected_review = VNone) /\
       (forall o, ObjectId_of_str sel = Some o ->
          selected_review =
            match find (has_id o) (reviews_collection w) with
            | Some doc => VDict (serialize_review doc)
            | None => VNone
            end)).
Proof.
  intros Hsel reviews. unfold list_reviews, find_one. run.
  fold reviews.
  assert (Ht : negb (String.eqb sel "") = true).
  { apply negb_true_iff. apply String.eqb_neq. exact Hsel. }
  rewrite Ht.
  destruct (find (id_is sel) reviews) as [r|] eqn:Hmem.
  - eexists. split; [reflexivity|]. split; [|discriminate].
    intros r' Hr'. inversion Hr'. reflexivity.
  - destruct (ObjectId_of_str sel) as [o|] eqn:Hoid.
    + destruct (find (has_id o) (reviews_collection w)) as [doc|] eqn:Hf.
      * assert (Htr := find_has_id_truthy _ _ _ Hf). simpl in Htr.
        rewrite Htr. eexists. split; [reflexivity|].
        split; [discriminate|]. intros _. split; [discriminate|].
        intros o' Ho'. inversion Ho'. subst o'. rewrite Hf. reflexivity.
      * eexists. split; [reflexivity|].
        split; [discriminate|]. intros _. split; [discriminate|].
        intros o' Ho'. inversion Ho'. subst o'. rewrite Hf. reflexivity.
    + eexists. split; [reflexivity|].
      split; [discriminate|]. intros _. split; [reflexivity|discriminate].
Qed.

(** *** Media uploader *)

Lemma log_calls_cons (c : call) (cs : list call) (w : world) :
  log_calls cs (log_call c w) = log_calls (c :: cs) w.
Proof.
  unfold log_calls, log_call. simpl. rewrite <- app_assoc. reflexivity.
Qed.

Lemma log_calls_nil (w : world) : log_calls [] w = w.
Proof. destruct w. unfold log_calls. simpl. rewrite app_nil_r. reflexivity. Qed.

Lemma accepted_cons (f : UploadFile) (rest : list (option UploadFile)) :
  accepted (Some f :: rest) =
    (if has_filename f then [f] else []) ++ accepted rest.
Proof. reflexivity. Qed.

Lemma upload_each_run (files : list (option UploadFile)) :
  (forall f, In f (accepted files) ->
     exists d, cloudinary_upload f = Replied (VDict d)) ->
  forall (acc : list pyval) (w : world),
    upload_each files acc w =
      (Ok (acc ++ flat_map returned_url (accepted files)),
       log_calls (map UploadCall (accepted files)) w).
Proof.
  induction files as [|file rest IH]; intros Hup acc w.
  - simpl. rewrite app_nil_r, log_calls_nil. reflexivity.
  - destruct file as [f|]; [|apply IH; exact Hup].
    rewrite accepted_cons in *. simpl upload_each.
    destruct (has_filename f) eqn:Hn; simpl negb; cbv iota;
      [|apply IH; exact Hup].
    destruct (Hup f (or_introl eq_refl)) as [d Hd].
    assert (Hrest : forall g, In g (accepted rest) ->
              exists d', cloudinary_upload g = Replied (VDict d')).
    { intros g Hg. apply Hup. right. exact Hg. }
    run. unfold returned_url at 1. rewrite Hd. simpl.
    destruct (truthy (Dict.get "secure_url" d)); rewrite (IH Hrest);
      rewrite log_calls_cons; [rewrite <- app_assoc|]; reflexivity.
Qed.

(** C8 (as amended): [upload_images] skips, without an error, the entries
    that are absent or have no name, whatever their content; every other
    file is uploaded, also one without content.  When each of these
    uploads is answered, the result is the sequence of returned secure
    URLs in the order of the accepted uploads, a skipped file or an answer
    without URL leaving no entry, and the uploads are the only calls made.
    An absent or empty collection gives the empty sequence. *)
Theorem upload_images_urls (files : list (option UploadFile)) (w : world) :
  (forall f, In f (accepted files) ->
     exists d, cloudinary_upload f = Replied (VDict d)) ->
  upload_images (Some files) w =
    (Ok (flat_map returned_url (accepted files)),
     log_calls (map UploadCall (accepted files)) w) /\
  upload_images None w = (Ok [], w) /\
  upload_images (Some []) w = (Ok [], w).
Proof.
  intros Hup. repeat split.
  destruct files as [|file rest].
  - simpl. rewrite log_calls_nil. reflexivity.
  - unfold upload_images. rewrite (upload_each_run _ Hup). reflexivity.
Qed.

(** *** Round trip *)

Lemma find_appended (o : ObjectId) (c : list pydict) (doc : pydict) :
  existsb (has_id o) c = false -> has_id o doc = true ->
  find (has_id o) (c ++ [doc]) = Some doc.
Proof.
  induction c as [|x c IH]; simpl; intros Hc Hd.
  - rewrite Hd. reflexivity.
  - apply orb_false_iff in Hc. destruct Hc as [Hx Hc].
    rewrite Hx. apply IH; assumption.
Qed.

(** C6: a review created by [create_review] without image files, and
    fetched by [get_review] under the identifier of the redirect, comes
    back with the name, the address and the rating that were submitted and
    with no images; so it does for name "Cafe X", address "123 Main St"
    and rating 4.  The geocoder is taken to know the address, the session
    to carry an email, the generated identifier to be new, and [str] and
    [ObjectId] to be inverse on it. *)
Theorem create_then_get_review (name address : string) (rating : Z)
    (images : option (list (option UploadFile))) (user reader : pydict)
    (now : Z) (w : world) (lat lon : float64) (email : pyval) :
  (let oid := new_ObjectId (log_call (GeocodeCall address) w) in
   ObjectId_of_str (ObjectId_str oid) = Some oid) ->
  0 <= rating <= 5 ->
  images = None \/ images = Some [] ->
  fst (geocode_address address w) = Ok (VFloat lat, VFloat lon) ->
  Dict.lookup "email" user = Some email ->
  existsb (has_id (new_ObjectId (log_call (GeocodeCall address) w)))
    (reviews_collection w) = false ->
  exists oid w' body,
    create_review name address rating images user now w =
      (Ok (RedirectResponse ("/reviews?selected=" ++ ObjectId_str oid)%string
             303), w') /\
    get_review (ObjectId_str oid) reader w' =
      (Ok (JSONResponse (VDict body)), w') /\
    Dict.lookup "id" body = Some (VStr (ObjectId_str oid)) /\
    Dict.lookup "name" body = Some (VStr name) /\
    Dict.lookup "address" body = Some (VStr address) /\
    Dict.lookup "rating" body = Some (VInt rating) /\
    Dict.lookup "images" body = Some (VList []).
Proof.
  intros Hinv Hrange Himg Hgeo Hmail Hnew. cbv zeta in Hinv.
  set (w1 := log_call (GeocodeCall address) w) in *.
  set (oid := new_ObjectId w1) in *.
  assert (Hg : geocode_address address w = (Ok (VFloat lat, VFloat lon), w1)).
  { rewrite (surjective_pairing (geocode_address address w)).
    rewrite Hgeo, geocode_address_world. reflexivity. }
  assert (Hu : upload_images images w1 = (Ok [], w1)).
  { destruct Himg as [->| ->]; reflexivity. }
  assert (Hr : (rating <? 0) || (rating >? 5) = false).
  { apply orb_false_iff.
    split; [apply Z.ltb_ge|rewrite Z.gtb_ltb; apply Z.ltb_ge]; lia. }
  eexists oid, _, _. split; [|split].
  - unfold create_review. rewrite Hr. unfold bind at 1. rewrite Hg.
    cbn [is_None orb]. unfold bind at 1. rewrite Hu.
    unfold bind at 1, lift. simpl py_getitem. rewrite Hmail.
    unfold insert_one. run. fold oid. rewrite Hnew. reflexivity.
  - unfold get_review, find_one. rewrite Hinv. run.
    rewrite find_appended;
      [reflexivity|exact Hnew|unfold has_id; simpl; apply N.eqb_refl].
  - repeat split.
Qed.

(** *** Listing *)

Lemma list_reviews_renders (selected : option string) (user : pydict)
    (w : world) :
  exists selected_review,
    list_reviews selected user w =
      (Ok (TemplateResponse "mapa.html"
             [ ("user", VDict user);
               ("reviews",
                VList (map VDict
                         (map serialize_review
                            (find_sort_created_at_desc (reviews_collection w)))));
               ("selected_review", selected_review) ]), w).
Proof.
  unfold list_reviews, find_one. run.
  destruct selected as [sel|]; [|eexists; reflexivity].
  destruct (negb (String.eqb sel "")); [|eexists; reflexivity].
  destruct (find (id_is sel) _); [eexists; reflexivity|].
  destruct (ObjectId_of_str sel) as [o|]; [|eexists; reflexivity].
  destruct (find (has_id o) (reviews_collection w)) as [[|kv doc]|];
    eexists; reflexivity.
Qed.

(** The sorted cursor returns the documents of the collection, each
    once, and no document before a newer one. *)
Lemma newer_eqb_total (a b : pydict) :
  newer_eqb a b = false -> newer_eqb b a = true.
Proof.
  unfold newer_eqb.
  destruct (created_at a) as [ta|], (created_at b) as [tb|];
    try discriminate; try reflexivity.
  intros H. apply Z.leb_gt in H. apply Z.leb_le. lia.
Qed.

Lemma newer_eqb_trans (a b c : pydict) :
  newer_eqb a b = true -> newer_eqb b c = true -> newer_eqb a c = true.
Proof.
  unfold newer_eqb.
  destruct (created_at a) as [ta|], (created_at b) as [tb|],
    (created_at c) as [tc|]; try discriminate; try reflexivity.
  intros H1 H2. apply Z.leb_le in H1, H2. apply Z.leb_le. lia.
Qed.

Lemma newer_eqb_sound (a b : pydict) :
  newer_eqb a b = true -> newer_or_same a b.
Proof.
  unfold newer_eqb, newer_or_same. intros H ta tb Ha Hb.
  rewrite Ha, Hb in H. apply Z.leb_le. exact H.
Qed.

Lemma insert_desc_perm (d : pydict) (l : list pydict) :
  Permutation (insert_desc d l) (d :: l).
Proof.
  induction l as [|x l IH]; simpl; [reflexivity|].
  destruct (newer_eqb d x); [reflexivity|].
  rewrite IH. apply perm_swap.
Qed.

Lemma sort_permutes (c : list pydict) :
  Permutation (find_sort_created_at_desc c) c.
Proof.
  induction c as [|d c IH]; simpl; [reflexivity|].
  rewrite insert_desc_perm. apply perm_skip. exact IH.
Qed.

Lemma insert_desc_sorted (d : pydict) (l : list pydict) :
  StronglySorted (fun a b => newer_eqb a b = true) l ->
  StronglySorted (fun a b => newer_eqb a b = true) (insert_desc d l).
Proof.
  induction l as [|x l IH]; simpl; intros Hs.
  - constructor; constructor.
  - destruct (newer_eqb d x) eqn:Hdx.
    + constructor; [exact Hs|].
      apply StronglySorted_inv in Hs. destruct Hs as [_ Hx].
      constructor; [exact Hdx|].
      eapply Forall_impl; [|exact Hx].
      intros y Hxy. apply (newer_eqb_trans d x y); assumption.
    + apply StronglySorted_inv in Hs. destruct Hs as [Hs Hx].
      constructor; [apply IH; exact Hs|].
      apply (Permutation_Forall (Permutation_sym (insert_desc_perm d l))).
      constructor; [apply newer_eqb_total; exact Hdx|exact Hx].
Qed.

Lemma sort_descends (c : list pydict) :
  StronglySorted newer_or_same (find_sort_created_at_desc c).
Proof.
  assert (H : StronglySorted (fun a b => newer_eqb a b = true)
                (find_sort_created_at_desc c)).
  { induction c as [|d c IH]; simpl; [constructor|].
    apply insert_desc_sorted. exact IH. }
  induction H as [|a l _ IH Ha]; constructor; [exact IH|].
  eapply Forall_impl; [|exact Ha]. intros b. apply newer_eqb_sound.
Qed.

Lemma newest_first_of_three (l : list pydict) (d1 d2 d3 : pydict)
    (t1 t2 t3 : Z) :
  Permutation l [d1; d2; d3] -> StronglySorted newer_or_same l ->
  created_at d1 = Some t1 -> created_at d2 = Some t2 ->
  created_at d3 = Some t3 -> t1 < t2 -> t2 < t3 ->
  l = [d3; d2; d1].
Proof.
  intros Hp Hs H1 H2 H3 H12 H23.
  assert (Hlen := Permutation_length Hp).
  destruct l as [|x [|y [|z [|? ?]]]]; try discriminate. clear Hlen.
  assert (I1 : In d1 [x; y; z])
    by (apply (Permutation_in _ (Permutation_sym Hp)); simpl; auto).
  assert (I2 : In d2 [x; y; z])
    by (apply (Permutation_in _ (Permutation_sym Hp)); simpl; auto).
  assert (I3 : In d3 [x; y; z])
    by (apply (Permutation_in _ (Permutation_sym Hp)); simpl; auto).
  apply StronglySorted_inv in Hs. destruct Hs as [Hs Hx].
  apply StronglySorted_inv in Hs. destruct Hs as [_ Hy].
  apply Forall_cons_iff in Hx. destruct Hx as [Hxy Hx].
  apply Forall_cons_iff in Hx. destruct Hx as [Hxz _].
  apply Forall_cons_iff in Hy. destruct Hy as [Hyz _].
  unfold newer_or_same in Hxy, Hxz, Hyz.
  simpl in I1, I2, I3.
  destruct I1 as [<-|[<-|[<-|[]]]];
  destruct I2 as [E2|[E2|[E2|[]]]];
  destruct I3 as [E3|[E3|[E3|[]]]];
    try (rewrite <- E2 in H2); try (rewrite <- E3 in H3);
    try (exfalso; congruence);
    try (exfalso; rewrite H2 in H1; injection H1; lia);
    try (exfalso; rewrite H3 in H1; injection H1; lia);
    try (exfalso; rewrite H3 in H2; injection H2; lia);
    subst;
    try reflexivity;
    exfalso;
    repeat match goal with
           | Ha : created_at ?a = Some ?ta, Hb : created_at ?b = Some ?tb,
             H : forall u v, created_at ?a = Some u -> created_at ?b = Some v -> _
             |- _ => pose proof (H ta tb Ha Hb); clear H
           end;
    lia.
Qed.

(** C5 (as amended): [list_reviews] hands the template every stored
    review, each once, none left out and none cut off, ordered by the
    stored [created_at], newest first; three reviews whose stored dates
    are t1 < t2 < t3 are listed as t3, t2, t1.  The stored date is the
    creation time cut to the millisecond, so reviews created within one
    millisecond are not told apart by it. *)
Theorem list_reviews_newest_first (selected : option string) (user : pydict)
    (w : world) :
  exists docs selected_review,
    list_reviews selected user w =
      (Ok (TemplateResponse "mapa.html"
             [ ("user", VDict user);
               ("reviews", VList (map VDict (map serialize_review docs)));
               ("selected_review", selected_review) ]), w) /\
    Permutation docs (reviews_collection w) /\
    StronglySorted newer_or_same docs /\
    (forall d1 d2 d3 t1 t2 t3,
       Permutation (reviews_collection w) [d1; d2; d3] ->
       created_at d1 = Some t1 -> created_at d2 = Some t2 ->
       created_at d3 = Some t3 -> t1 < t2 -> t2 < t3 ->
       docs = [d3; d2; d1]).
Proof.
  destruct (list_reviews_renders selected user w) as [sr Hrun].
  exists (find_sort_created_at_desc (reviews_collection w)), sr.
  split; [exact Hrun|]. split; [apply sort_permutes|].
  split; [apply sort_descends|].
  intros d1 d2 d3 t1 t2 t3 Hp. apply newest_first_of_three.
  - exact (Permutation_trans (sort_permutes _) Hp).
  - apply sort_descends.
Qed.

(** ** Further properties *)

(** *** The credential bundle *)

Lemma require_user_valid (now : Z) (w : world) (u : pydict) :
  Dict.get "user" (session w) = VDict u -> u <> [] ->
  truthy (Dict.get "token" (session w)) = true ->
  (forall d, session_expiry w = Some d ->
     aware d = true /\ now < timestamp d) ->
  require_user now w =
    (Ok (Dict.set "exp" (of_option_datetime (session_expiry w))
           (Dict.set "iat"
              (of_option_datetime
                 (parse_session_datetime (Dict.get "token_iat" (session w))))
              (Dict.set "token" (Dict.get "token" (session w)) u))), w).
Proof.
  intros Hu Hne Ht He. unfold require_user. run.
  rewrite Hu, Ht. simpl.
  destruct u as [|kv u]; [contradiction|]. cbn [negb orb].
  rewrite session_expiry_unfold.
  destruct (session_expiry w) as [d|]; [|reflexivity].
  destruct (He d eq_refl) as [Ha Hlt].
  unfold datetime_ge. rewrite Ha.
  apply Z.leb_gt in Hlt. rewrite Hlt. reflexivity.
Qed.

(** X1: on a session that holds user claims and a token and whose expiry
    is absent or still ahead, [require_user] returns the user claims with
    three entries set from the session: ["token"], ["iat"] and ["exp"].
    Every other claim is handed on as stored, a claim under one of the
    three names is overridden, and the session is left as it is. *)
Theorem require_user_bundle (now : Z) (w : world) (u : pydict) :
  Dict.get "user" (session w) = VDict u -> u <> [] ->
  truthy (Dict.get "token" (session w)) = true ->
  (forall d, session_expiry w = Some d ->
     aware d = true /\ now < timestamp d) ->
  exists bundle,
    require_user now w = (Ok bundle, w) /\
    Dict.get "token" bundle = Dict.get "token" (session w) /\
    Dict.get "iat" bundle =
      of_option_datetime
        (parse_session_datetime (Dict.get "token_iat" (session w))) /\
    Dict.get "exp" bundle = of_option_datetime (session_expiry w) /\
    (forall k, k <> "token" -> k <> "iat" -> k <> "exp" ->
       Dict.lookup k bundle = Dict.lookup k u).
Proof.
  intros Hu Hne Ht He. eexists. split.
  - apply (require_user_valid now w u); assumption.
  - split; [|split; [|split]].
    + do 2 (rewrite get_set_other by discriminate). apply get_set_same.
    + rewrite get_set_other by discriminate. apply get_set_same.
    + apply get_set_same.
    + intros k H1 H2 H3. rewrite !lookup_set_other by assumption. reflexivity.
Qed.

(** X2: [require_user] lets a request through only if the session holds
    user claims and a token and its expiry, when there is one, is an
    offset-aware date strictly after the current time; letting it through
    changes nothing in the world. *)
Theorem require_user_ok_inv (now : Z) (w w' : world) (bundle : pydict) :
  require_user now w = (Ok bundle, w') ->
  w' = w /\
  truthy (Dict.get "user" (session w)) = true /\
  truthy (Dict.get "token" (session w)) = true /\
  (forall d, session_expiry w = Some d -> aware d = true /\ now < timestamp d).
Proof.
  intros H. split; [exact (require_user_keeps_world _ _ _ _ H)|].
  revert H. unfold require_user. run.
  destruct (truthy (Dict.get "user" (session w))); [|discriminate].
  destruct (truthy (Dict.get "token" (session w))); [|discriminate].
  simpl. rewrite session_expiry_unfold.
  destruct (session_expiry w) as [d|].
  - unfold datetime_ge. destruct (aware d) eqn:Ha; [|discriminate].
    destruct (timestamp d <=? now) eqn:Hle; simpl; [discriminate|].
    intros _. split; [reflexivity|]. split; [reflexivity|].
    intros d0 Hd. inversion Hd. subst d0.
    split; [exact Ha|apply Z.leb_gt; exact Hle].
  - intros _. split; [reflexivity|]. split; [reflexivity|]. discriminate.
Qed.

(** *** Login and logout *)

Lemma login_run (data : pydict) (w : world) (id_info : pydict)
    (issued_dt expires_dt : option datetime) :
  truthy (Dict.get "token" data) = true ->
  verify_oauth2_token (Dict.get "token" data) = Some id_info ->
  parse_token_times id_info = Ok (issued_dt, expires_dt) ->
  login data w =
    (Ok (RedirectResponse "/reviews" 303),
     with_session
       (Dict.set "token_exp" (isoformat_or_None expires_dt)
          (Dict.set "token_iat" (isoformat_or_None issued_dt)
             (Dict.set "token" (Dict.get "token" data)
                (Dict.set "user"
                   (VDict [ ("google_id", Dict.get "sub" id_info);
                            ("email", Dict.get "email" id_info);
                            ("name", Dict.get "name" id_info);
                            ("picture", Dict.get "picture" id_info) ])
                   (session w))))) w).
Proof.
  intros Ht Hv Hp. unfold login. rewrite Ht, Hv. cbn [negb].
  unfold bind at 1, lift. rewrite Hp. unfold session_set. run. reflexivity.
Qed.

Lemma login_session_expiry (data : pydict) (w w' : world) (id_info : pydict)
    (issued_dt expires_dt : option datetime) (r : response) :
  truthy (Dict.get "token" data) = true ->
  verify_oauth2_token (Dict.get "token" data) = Some id_info ->
  parse_token_times id_info = Ok (issued_dt, expires_dt) ->
  (forall d, expires_dt = Some d -> fromisoformat (isoformat d) = Some d) ->
  login data w = (Ok r, w') ->
  session_expiry w' = expires_dt.
Proof.
  intros Ht Hv Hp Hiso Hrun.
  rewrite (login_run data w id_info issued_dt expires_dt Ht Hv Hp) in Hrun.
  inversion Hrun. subst. unfold session_expiry. simpl session.
  rewrite get_set_same. destruct expires_dt as [d|]; simpl; [|reflexivity].
  apply Hiso. reflexivity.
Qed.

(** X3: a login that the verifier accepts opens a session that
    [require_user] lets through at every time before the expiry of the
    credential, and at every time when the credential has none; the
    handler then sees the token sent to [login] and the subject and email
    of the verified claims.  The expiry is taken to survive [isoformat]
    and [fromisoformat] and to be offset-aware. *)
Theorem login_then_require_user (data : pydict) (w : world) (id_info : pydict)
    (issued_dt expires_dt : option datetime) (now : Z) :
  truthy (Dict.get "token" data) = true ->
  verify_oauth2_token (Dict.get "token" data) = Some id_info ->
  parse_token_times id_info = Ok (issued_dt, expires_dt) ->
  (forall d, expires_dt = Some d -> fromisoformat (isoformat d) = Some d) ->
  (forall d, expires_dt = Some d -> aware d = true /\ now < timestamp d) ->
  exists w' bundle,
    login data w = (Ok (RedirectResponse "/reviews" 303), w') /\
    require_user now w' = (Ok bundle, w') /\
    Dict.get "token" bundle = Dict.get "token" data /\
    Dict.get "google_id" bundle = Dict.get "sub" id_info /\
    Dict.get "email" bundle = Dict.get "email" id_info /\
    Dict.get "exp" bundle = of_option_datetime expires_dt.
Proof.
  intros Ht Hv Hp Hiso Hexp.
  pose proof (login_run data w id_info issued_dt expires_dt Ht Hv Hp) as Hrun.
  pose proof (login_session_expiry _ _ _ _ _ _ _ Ht Hv Hp Hiso Hrun) as He.
  set (w' := with_session _ w) in *.
  assert (Hu : Dict.get "user" (session w') =
               VDict [ ("google_id", Dict.get "sub" id_info);
                       ("email", Dict.get "email" id_info);
                       ("name", Dict.get "name" id_info);
                       ("picture", Dict.get "picture" id_info) ]).
  { unfold w'. simpl session.
    do 3 (rewrite get_set_other by discriminate). apply get_set_same. }
  assert (Htok : Dict.get "token" (session w') = Dict.get "token" data).
  { unfold w'. simpl session.
    do 2 (rewrite get_set_other by discriminate). apply get_set_same. }
  exists w'. eexists. split; [exact Hrun|]. split.
  - apply (require_user_valid now w' _ Hu); [discriminate| |].
    + rewrite Htok. exact Ht.
    + rewrite He. exact Hexp.
  - rewrite He, Htok. repeat split.
Qed.

(** X4: once the current time has reached the expiry of the credential,
    the session that [login] opened is refused with 401 and cleared, and
    what follows meets an empty session: [require_user] answers 401 "No
    autenticado" and [get_session_user] returns nothing, at any time. *)
Theorem login_then_expired (data : pydict) (w w' : world) (id_info : pydict)
    (issued_dt : option datetime) (d : datetime) (r : response) (now later : Z) :
  truthy (Dict.get "token" data) = true ->
  verify_oauth2_token (Dict.get "token" data) = Some id_info ->
  parse_token_times id_info = Ok (issued_dt, Some d) ->
  fromisoformat (isoformat d) = Some d ->
  aware d = true -> timestamp d <= now ->
  login data w = (Ok r, w') ->
  require_user now w' =
    (HTTPException 401 "Token OAuth caducado", with_session [] w') /\
  require_user later (with_session [] w') =
    (HTTPException 401 "No autenticado", with_session [] w') /\
  get_session_user later (with_session [] w') =
    (Ok VNone, with_session [] w').
Proof.
  intros Ht Hv Hp Hiso Ha Hle Hrun.
  assert (He : session_expiry w' = Some d).
  { apply (login_session_expiry data w w' id_info issued_dt (Some d) r);
      try assumption.
    intros d' Hd'. inversion Hd'. subst d'. exact Hiso. }
  destruct (login_establishes data w w' r Hrun) as [Hu Htok].
  split; [apply (require_user_expired now w' d); assumption|].
  split.
  - apply require_user_no_credentials. left. reflexivity.
  - rewrite get_session_user_run. reflexivity.
Qed.

(** X5: a login that fails, by a missing token, a refused credential or a
    date that cannot be converted, writes nothing: the session that was
    there before is still there. *)
Theorem login_failure_keeps_session (data : pydict) (w w' : world)
    (out : outcome response) :
  login data w = (out, w') -> (forall r, out <> Ok r) -> w' = w.
Proof.
  unfold login.
  destruct (truthy (Dict.get "token" data)); cbn [negb];
    [|intros H _; inversion H; reflexivity].
  destruct (verify_oauth2_token _) as [id_info|];
    [|intros H _; inversion H; reflexivity].
  unfold bind at 1, lift.
  destruct (parse_token_times id_info) as [[issued_dt expires_dt]|c e|e];
    [|intros H _; inversion H; reflexivity
     |intros H _; inversion H; reflexivity].
  unfold session_set. run. intros H Hfail. inversion H. subst.
  exfalso. apply (Hfail (RedirectResponse "/reviews" 303)). reflexivity.
Qed.

(** X6: after [logout] the session is empty and the collection and the
    call log are as before; the three routes behind [require_user] then
    answer 401 without an outbound call, whatever their parameters, and
    the home page is rendered for nobody. *)
Theorem logout_then_unauthenticated (w : world) (now now' : Z)
    (selected : option string) (name address : string) (rating : Z)
    (images : option (list (option UploadFile))) (review_id : string) :
  let w' := with_session [] w in
  logout w = (Ok (RedirectResponse "/" 303), w') /\
  GET_reviews now selected w' = (HTTPException 401 "No autenticado", w') /\
  POST_reviews now now' name address rating images w' =
    (HTTPException 401 "No autenticado", w') /\
  GET_review now review_id w' = (HTTPException 401 "No autenticado", w') /\
  GET_home now w' =
    (Ok (TemplateResponse "index.html"
           [ ("client_id", VStr CLIENT_ID); ("user", VNone) ]), w').
Proof.
  intros w'.
  assert (H401 : require_user now w' = (HTTPException 401 "No autenticado", w')).
  { apply require_user_no_credentials. left. reflexivity. }
  split; [reflexivity|].
  split; [apply (Depends_unauthenticated _ _ _ _ _ _ H401)|].
  split; [apply (Depends_unauthenticated _ _ _ _ _ _ H401)|].
  split; [apply (Depends_unauthenticated _ _ _ _ _ _ H401)|].
  unfold GET_home, Depends, bind. rewrite get_session_user_run. reflexivity.
Qed.

(** X7: without user claims or without a token in the session, each
    route behind [require_user] answers 401 and leaves the world as it
    is: a review is neither geocoded, uploaded nor stored, and the rating
    is not even looked at. *)
Theorem routes_require_session (w : world) (now now' : Z)
    (selected : option string) (name address : string) (rating : Z)
    (images : option (list (option UploadFile))) (review_id : string) :
  truthy (Dict.get "user" (session w)) = false \/
  truthy (Dict.get "token" (session w)) = false ->
  GET_reviews now selected w = (HTTPException 401 "No autenticado", w) /\
  POST_reviews now now' name address rating images w =
    (HTTPException 401 "No autenticado", w) /\
  GET_review now review_id w = (HTTPException 401 "No autenticado", w).
Proof.
  intros H. pose proof (require_user_no_credentials now w H) as H401.
  repeat split; apply (Depends_unauthenticated _ _ _ _ _ _ H401).
Qed.

(** X8: with a session whose expiry is absent or still ahead, the home
    page sends a visitor with user claims on to the reviews, and renders
    the landing page, with the configured client identifier, when the
    stored claims are missing or empty; the session is left as it is. *)
Theorem GET_home_cases (now : Z) (w : world) :
  (forall d, session_expiry w = Some d -> aware d = true /\ now < timestamp d) ->
  (truthy (Dict.get "user" (session w)) = true ->
     GET_home now w = (Ok (RedirectResponse "/reviews" 303), w)) /\
  (truthy (Dict.get "user" (session w)) = false ->
     GET_home now w =
       (Ok (TemplateResponse "index.html"
              [ ("client_id", VStr CLIENT_ID);
                ("user", Dict.get "user" (session w)) ]), w)).
Proof.
  intros He. unfold GET_home, Depends, bind. rewrite get_session_user_run.
  destruct (session_expiry w) as [d|].
  - destruct (He d eq_refl) as [Ha Hlt]. unfold datetime_ge. rewrite Ha.
    apply Z.leb_gt in Hlt. rewrite Hlt. unfold home.
    split; intros ->; reflexivity.
  - unfold home. split; intros ->; reflexivity.
Qed.

(** X9: with a session whose expiry has passed, the home page clears the
    session and renders the landing page for nobody, also when user
    claims were stored. *)
Theorem GET_home_expired (now : Z) (w : world) (d : datetime) :
  session_expiry w = Some d -> aware d = true -> timestamp d <= now ->
  GET_home now w =
    (Ok (TemplateResponse "index.html"
           [ ("client_id", VStr CLIENT_ID); ("user", VNone) ]),
     with_session [] w).
Proof.
  intros He Ha Hle. unfold GET_home, Depends, bind.
  rewrite get_session_user_run, He. unfold datetime_ge. rewrite Ha.
  apply Z.leb_le in Hle. rewrite Hle. reflexivity.
Qed.

(** *** Geocoding and creating *)

(** X10: the geocoder client makes one request per call and no other
    change to the world; it returns both coordinates as floats or both
    absent, and it never raises an HTTP error of its own. *)
Theorem geocode_address_contract (address : string) (w : world) :
  snd (geocode_address address w) = log_call (GeocodeCall address) w /\
  (fst (geocode_address address w) = Ok (VNone, VNone) \/
   (exists lat lon,
      fst (geocode_address address w) = Ok (VFloat lat, VFloat lon)) \/
   (exists e, fst (geocode_address address w) = Raise e)).
Proof.
  split; [apply geocode_address_world|apply geocode_address_result].
Qed.

(** X11: an exception of the geocoder client, be it a failed request or
    a first result without usable coordinates, leaves [create_review] as
    that exception and not as a 400; the request to the geocoder is the
    only call made, and nothing is stored. *)
Theorem create_review_geocoder_failure (name address : string) (rating : Z)
    (images : option (list (option UploadFile))) (user : pydict) (now : Z)
    (w : world) (e : string) :
  0 <= rating <= 5 ->
  fst (geocode_address address w) = Raise e ->
  create_review name address rating images user now w =
    (Raise e, log_call (GeocodeCall address) w).
Proof.
  intros Hrange Hgeo. unfold create_review.
  replace ((rating <? 0) || (rating >? 5)) with false.
  - unfold bind at 1.
    rewrite (surjective_pairing (geocode_address address w)).
    rewrite Hgeo, geocode_address_world. reflexivity.
  - symmetry. apply orb_false_iff.
    split; [apply Z.ltb_ge|rewrite Z.gtb_ltb; apply Z.ltb_ge]; lia.
Qed.

Lemma upload_each_abort (pre post : list (option UploadFile))
    (f : UploadFile) (e : string) :
  (forall g, In g (accepted pre) ->
     exists d, cloudinary_upload g = Replied (VDict d)) ->
  has_filename f = true -> cloudinary_upload f = Failed e ->
  forall (acc : list pyval) (w : world),
    upload_each (pre ++ Some f :: post) acc w =
      (Raise e, log_calls (map UploadCall (accepted pre ++ [f])) w).
Proof.
  intros Hpre Hn Hf.
  induction pre as [|file rest IH]; intros acc w.
  - simpl. rewrite Hn. simpl. run. rewrite Hf. reflexivity.
  - destruct file as [g|]; [|apply IH; exact Hpre].
    rewrite accepted_cons in *. simpl app. simpl upload_each.
    destruct (has_filename g) eqn:Hg; simpl negb; cbv iota;
      [|apply IH; exact Hpre].
    destruct (Hpre g (or_introl eq_refl)) as [d Hd].
    assert (Hrest : forall h, In h (accepted rest) ->
              exists d', cloudinary_upload h = Replied (VDict d')).
    { intros h Hh. apply Hpre. right. exact Hh. }
    run. rewrite Hd. simpl.
    destruct (truthy (Dict.get "secure_url" d)); rewrite (IH Hrest);
      rewrite log_calls_cons; reflexivity.
Qed.

(** X12: when the media host fails on one accepted file, the files
    before it have been uploaded, the files after it are not, and
    [upload_images] ends in the exception of the host: the URLs already
    collected are not returned. *)
Theorem upload_images_aborts (pre post : list (option UploadFile))
    (f : UploadFile) (e : string) (w : world) :
  (forall g, In g (accepted pre) ->
     exists d, cloudinary_upload g = Replied (VDict d)) ->
  has_filename f = true -> cloudinary_upload f = Failed e ->
  upload_images (Some (pre ++ Some f :: post)) w =
    (Raise e, log_calls (map UploadCall (accepted pre ++ [f])) w).
Proof.
  intros Hpre Hn Hf. unfold upload_images.
  destruct (pre ++ Some f :: post) as [|x l] eqn:E.
  - destruct pre; discriminate.
  - rewrite <- E. apply upload_each_abort; assumption.
Qed.

Lemma upload_images_run (files : list (option UploadFile)) (w : world) :
  (forall f, In f (accepted files) ->
     exists d, cloudinary_upload f = Replied (VDict d)) ->
  upload_images (Some files) w =
    (Ok (flat_map returned_url (accepted files)),
     log_calls (map UploadCall (accepted files)) w).
Proof.
  intros Hup. destruct files as [|file rest].
  - simpl. rewrite log_calls_nil. reflexivity.
  - unfold upload_images. rewrite (upload_each_run _ Hup). reflexivity.
Qed.

Lemma rating_in_range (rating : Z) :
  0 <= rating <= 5 -> (rating <? 0) || (rating >? 5) = false.
Proof.
  intros H. apply orb_false_iff.
  split; [apply Z.ltb_ge|rewrite Z.gtb_ltb; apply Z.ltb_ge]; lia.
Qed.

(** X13: when the rating is in range, the geocoder knows the address,
    every accepted upload is answered, the credentials carry an email and
    the generated identifier is new, [create_review] appends one document
    and redirects to the list with its identifier selected.  The document
    holds the submitted name, address and rating, the coordinates of the
    geocoder, the returned URLs, and the email, name, token, issue and
    expiry dates of the credentials, each as BSON keeps it; its
    [created_at] is the current time cut to the millisecond and
    offset-naive.  The calls made are the geocoder request, the uploads
    and the insert, in this order. *)
Theorem create_review_stores (name address : string) (rating : Z)
    (files : list (option UploadFile)) (user : pydict) (now : Z) (w : world)
    (lat lon : float64) (email : pyval) :
  let w2 := log_calls (map UploadCall (accepted files))
              (log_call (GeocodeCall address) w) in
  let oid := new_ObjectId w2 in
  0 <= rating <= 5 ->
  fst (geocode_address address w) = Ok (VFloat lat, VFloat lon) ->
  (forall f, In f (accepted files) ->
     exists d, cloudinary_upload f = Replied (VDict d)) ->
  Dict.lookup "email" user = Some email ->
  existsb (has_id oid) (reviews_collection w) = false ->
  exists stored w',
    create_review name address rating (Some files) user now w =
      (Ok (RedirectResponse ("/reviews?selected=" ++ ObjectId_str oid)%string
             303), w') /\
    reviews_collection w' = reviews_collection w ++ [stored] /\
    session w' = session w /\
    calls w' =
      calls w ++ [GeocodeCall address] ++ map UploadCall (accepted files)
        ++ [InsertCall stored] /\
    stored =
      [ ("_id", VObjectId oid);
        ("name", VStr name);
        ("address", VStr address);
        ("latitude", VFloat lat);
        ("longitude", VFloat lon);
        ("rating", VInt rating);
        ("author_email", bson_value email);
        ("author_name", bson_value (Dict.get "name" user));
        ("token", bson_value (Dict.get "token" user));
        ("token_issued_at", bson_value (Dict.get "iat" user));
        ("token_expires_at", bson_value (Dict.get "exp" user));
        ("images",
         VList (map bson_value (flat_map returned_url (accepted files))));
        ("created_at", VDatetime (mk_datetime (now / 1000 * 1000) false)) ].
Proof.
  intros w2 oid Hrange Hgeo Hup Hmail Hnew.
  assert (Hg : geocode_address address w =
               (Ok (VFloat lat, VFloat lon), log_call (GeocodeCall address) w)).
  { rewrite (surjective_pairing (geocode_address address w)).
    rewrite Hgeo, geocode_address_world. reflexivity. }
  eexists _, _. split; [|split; [|split; [|split]]].
  - unfold create_review. rewrite (rating_in_range _ Hrange).
    unfold bind at 1. rewrite Hg. cbn [is_None orb]. unfold bind at 1.
    rewrite (upload_images_run _ _ Hup). fold w2.
    unfold bind at 1, lift. simpl py_getitem. rewrite Hmail.
    unfold insert_one. run. fold oid.
    replace (reviews_collection w2) with (reviews_collection w) by reflexivity.
    rewrite Hnew. reflexivity.
  - reflexivity.
  - reflexivity.
  - simpl. rewrite <- !app_assoc. reflexivity.
  - reflexivity.
Qed.

(** X14: with credentials that lack the ["email"] entry, [create_review]
    ends in [KeyError] after the address has been geocoded and the images
    have been uploaded; no document is stored. *)
Theorem create_review_missing_email (name address : string) (rating : Z)
    (files : list (option UploadFile)) (user : pydict) (now : Z) (w : world)
    (lat lon : float64) :
  0 <= rating <= 5 ->
  fst (geocode_address address w) = Ok (VFloat lat, VFloat lon) ->
  (forall f, In f (accepted files) ->
     exists d, cloudinary_upload f = Replied (VDict d)) ->
  Dict.lookup "email" user = None ->
  create_review name address rating (Some files) user now w =
    (Raise "KeyError",
     log_calls (map UploadCall (accepted files))
       (log_call (GeocodeCall address) w)).
Proof.
  intros Hrange Hgeo Hup Hmail.
  assert (Hg : geocode_address address w =
               (Ok (VFloat lat, VFloat lon), log_call (GeocodeCall address) w)).
  { rewrite (surjective_pairing (geocode_address address w)).
    rewrite Hgeo, geocode_address_world. reflexivity. }
  unfold create_review. rewrite (rating_in_range _ Hrange).
  unfold bind at 1. rewrite Hg. cbn [is_None orb]. unfold bind at 1.
  rewrite (upload_images_run _ _ Hup).
  unfold bind at 1, lift. simpl py_getitem. rewrite Hmail. reflexivity.
Qed.

(** X15: when the media host fails on an accepted file, [create_review]
    ends in the exception of the host; the address has been geocoded and
    the earlier files uploaded, and no document is stored. *)
Theorem create_review_upload_failure (name address : string) (rating : Z)
    (pre post : list (option UploadFile)) (f : UploadFile) (user : pydict)
    (now : Z) (w : world) (lat lon : float64) (e : string) :
  0 <= rating <= 5 ->
  fst (geocode_address address w) = Ok (VFloat lat, VFloat lon) ->
  (forall g, In g (accepted pre) ->
     exists d, cloudinary_upload g = Replied (VDict d)) ->
  has_filename f = true -> cloudinary_upload f = Failed e ->
  exists w',
    create_review name address rating (Some (pre ++ Some f :: post)) user
      now w = (Raise e, w') /\
    reviews_collection w' = reviews_collection w /\
    calls w' =
      calls w ++ [GeocodeCall address] ++ map UploadCall (accepted pre ++ [f]).
Proof.
  intros Hrange Hgeo Hpre Hn Hf.
  assert (Hg : geocode_address address w =
               (Ok (VFloat lat, VFloat lon), log_call (GeocodeCall address) w)).
  { rewrite (surjective_pairing (geocode_address address w)).
    rewrite Hgeo, geocode_address_world. reflexivity. }
  eexists. split; [|split].
  - unfold create_review. rewrite (rating_in_range _ Hrange).
    unfold bind at 1. rewrite Hg. cbn [is_None orb]. unfold bind at 1.
    unfold upload_images.
    destruct (pre ++ Some f :: post) as [|x l] eqn:E;
      [destruct pre; discriminate|].
    rewrite <- E. rewrite (upload_each_abort pre post f e Hpre Hn Hf).
    reflexivity.
  - reflexivity.
  - simpl. rewrite <- app_assoc. reflexivity.
Qed.


(** *** Reading back *)

Lemma find_app_some {A : Type} (p : A -> bool) (c l : list A) (x : A) :
  find p c = Some x -> find p (c ++ l) = Some x.
Proof.
  induction c as [|y c IH]; simpl; [discriminate|].
  destruct (p y); [intros H; exact H|exact IH].
Qed.

Lemma get_review_found (review_id : string) (reader : pydict) (w : world)
    (o : ObjectId) (doc : pydict) :
  ObjectId_of_str review_id = Some o ->
  find (has_id o) (reviews_collection w) = Some doc ->
  get_review review_id reader w =
    (Ok (JSONResponse (VDict (serialize_review doc))), w).
Proof.
  intros Ho Hf. unfold get_review, find_one. rewrite Ho. run. rewrite Hf.
  assert (Ht := find_has_id_truthy _ _ _ Hf). simpl in Ht. rewrite Ht.
  reflexivity.
Qed.

Lemma get_review_ok_inv (review_id : string) (reader : pydict) (w w1 : world)
    (resp : response) :
  get_review review_id reader w = (Ok resp, w1) ->
  exists o doc,
    ObjectId_of_str review_id = Some o /\
    find (has_id o) (reviews_collection w) = Some doc /\
    resp = JSONResponse (VDict (serialize_review doc)).
Proof.
  intros H.
  destruct (ObjectId_of_str review_id) as [o|] eqn:Ho;
    [|unfold get_review in H; rewrite Ho in H; discriminate].
  destruct (find (has_id o) (reviews_collection w)) as [doc|] eqn:Hf.
  - rewrite (get_review_found _ _ _ _ _ Ho Hf) in H. inversion H. subst.
    exists o, doc. split; [reflexivity|]. split; [exact Hf|reflexivity].
  - unfold get_review, find_one in H. rewrite Ho in H. run.
    rewrite Hf in H. discriminate.
Qed.

(** X17: whatever [create_review] ends in, a review that [get_review]
    returned before is returned unchanged afterwards: creating never
    alters or hides a stored review. *)
Theorem create_review_keeps_reviews (name address : string) (rating : Z)
    (images : option (list (option UploadFile))) (user reader : pydict)
    (now : Z) (w w' : world) (out : outcome response) (review_id : string)
    (resp : response) :
  create_review name address rating images user now w = (out, w') ->
  get_review review_id reader w = (Ok resp, w) ->
  get_review review_id reader w' = (Ok resp, w').
Proof.
  intros Hrun Hget.
  destruct (get_review_ok_inv _ _ _ _ _ Hget) as (o & doc & Ho & Hf & ->).
  apply (get_review_found _ _ _ o doc); [exact Ho|].
  destruct (create_review_persists_coordinates _ _ _ _ _ _ _ _ _ Hrun)
    as [->|(stored & lat & lon & -> & _)]; [exact Hf|].
  apply find_app_some. exact Hf.
Qed.

Lemma has_id_inv (o : ObjectId) (doc : pydict) :
  has_id o doc = true -> Dict.lookup "_id" doc = Some (VObjectId o).
Proof.
  unfold has_id. destruct (Dict.lookup "_id" doc) as [[]|]; try discriminate.
  intros H. apply N.eqb_eq in H. subst. reflexivity.
Qed.

(** X18: a stored review, the first under its identifier, is returned by
    [get_review] under the ["id"] of its own serialization, provided
    [ObjectId] reads back what [str] wrote for that identifier. *)
Theorem get_review_by_serialized_id (reader : pydict) (w : world)
    (o : ObjectId) (doc : pydict) :
  find (has_id o) (reviews_collection w) = Some doc ->
  ObjectId_of_str (ObjectId_str o) = Some o ->
  Dict.get "id" (serialize_review doc) = VStr (ObjectId_str o) /\
  get_review (ObjectId_str o) reader w =
    (Ok (JSONResponse (VDict (serialize_review doc))), w).
Proof.
  intros Hf Hinv. split.
  - apply find_some in Hf. destruct Hf as [_ Hid].
    apply has_id_inv in Hid. unfold serialize_review, Dict.get at 1.
    simpl Dict.lookup. unfold Dict.get. rewrite Hid. reflexivity.
  - apply (get_review_found _ _ _ o doc); assumption.
Qed.

(** X19: for a stored review whose [_id] is an [ObjectId], [list_reviews]
    called with the string of that identifier renders the page with, as
    selected review, the first review of the list it has just read whose
    ["id"] is that string: the identifier the redirect of [create_review]
    carries is resolved among the listed reviews. *)
Theorem list_reviews_preselects (user : pydict) (w : world) (o : ObjectId)
    (doc : pydict) :
  In doc (reviews_collection w) ->
  Dict.lookup "_id" doc = Some (VObjectId o) ->
  ObjectId_str o <> "" ->
  let reviews :=
    map serialize_review (find_sort_created_at_desc (reviews_collection w)) in
  exists r,
    list_reviews (Some (ObjectId_str o)) user w =
      (Ok (TemplateResponse "mapa.html"
             [ ("user", VDict user);
               ("reviews", VList (map VDict reviews));
               ("selected_review", VDict r) ]), w) /\
    find (id_is (ObjectId_str o)) reviews = Some r /\
    In r reviews /\
    Dict.get "id" r = VStr (ObjectId_str o).
Proof.
  intros Hin Hid Hne reviews.
  assert (Hser : In (serialize_review doc) reviews).
  { apply in_map. apply (Permutation_in _ (Permutation_sym (sort_permutes _))).
    exact Hin. }
  assert (Hmatch : id_is (ObjectId_str o) (serialize_review doc) = true).
  { unfold id_is, serialize_review. simpl Dict.lookup.
    unfold Dict.get. rewrite Hid. simpl. apply String.eqb_refl. }
  destruct (find (id_is (ObjectId_str o)) reviews) as [r|] eqn:Hfind.
  - exists r. apply find_some in Hfind as Hr. destruct Hr as [Hr Hidr].
    split; [|split; [reflexivity|split; [exact Hr|]]].
    + unfold list_reviews. run. fold reviews.
      replace (negb (String.eqb (ObjectId_str o) "")) with true
        by (symmetry; apply negb_true_iff, String.eqb_neq; exact Hne).
      rewrite Hfind. reflexivity.
    + unfold id_is in Hidr. unfold Dict.get.
      destruct (Dict.lookup "id" r) as [[]|]; try discriminate.
      apply String.eqb_eq in Hidr. subst. reflexivity.
  - exfalso. pose proof (find_none _ _ Hfind _ Hser) as Hno.
    rewrite Hmatch in Hno. discriminate.
Qed.

(** *** The two session readers and the routes *)

(** X21: [get_session_user] hands out user claims only from a session
    whose expiry, when there is one, is an offset-aware date strictly
    after the current time; what it hands out is what the session stores,
    and the session is left as it is. *)
Theorem get_session_user_ok_inv (now : Z) (w w' : world) (v : pyval) :
  get_session_user now w = (Ok v, w') -> truthy v = true ->
  w' = w /\ v = Dict.get "user" (session w) /\
  (forall d, session_expiry w = Some d -> aware d = true /\ now < timestamp d).
Proof.
  rewrite get_session_user_run. intros H Hv.
  destruct (session_expiry w) as [d|].
  - unfold datetime_ge in H. destruct (aware d) eqn:Ha; [|discriminate].
    destruct (timestamp d <=? now) eqn:Hle.
    + inversion H. subst. discriminate.
    + inversion H. subst. split; [reflexivity|]. split; [reflexivity|].
      intros d0 Hd. inversion Hd. subst d0.
      split; [exact Ha|apply Z.leb_gt; exact Hle].
  - inversion H. subst. split; [reflexivity|]. split; [reflexivity|].
    discriminate.
Qed.

(** X22: the two session readers agree: a session that [require_user]
    lets through is one for which the home page redirects to the reviews,
    without touching the session. *)
Theorem authenticated_home_redirects (now : Z) (w w' : world)
    (bundle : pydict) :
  require_user now w = (Ok bundle, w') ->
  GET_home now w = (Ok (RedirectResponse "/reviews" 303), w).
Proof.
  intros H. revert H. unfold require_user. run.
  destruct (truthy (Dict.get "user" (session w))) eqn:Hu; [|discriminate].
  destruct (truthy (Dict.get "token" (session w))); [|discriminate].
  simpl. rewrite session_expiry_unfold. intros H.
  unfold GET_home, Depends. run. rewrite get_session_user_run.
  destruct (session_expiry w) as [d|].
  - destruct (datetime_ge now d) as [[|]|]; simpl in H; try discriminate.
    unfold home. rewrite Hu. reflexivity.
  - unfold home. rewrite Hu. reflexivity.
Qed.

Lemma upload_each_calls (files : list (option UploadFile)) :
  forall (acc : list pyval) (w : world),
    exists n,
      snd (upload_each files acc w) =
        log_calls (map UploadCall (firstn n (accepted files))) w.
Proof.
  induction files as [|file rest IH]; intros acc w.
  - exists 0%nat. simpl. rewrite log_calls_nil. reflexivity.
  - destruct file as [f|]; [|apply IH].
    rewrite accepted_cons. simpl upload_each.
    destruct (has_filename f); simpl negb; cbv iota; [|apply IH].
    run. destruct (cloudinary_upload f) as [result|e];
      [|exists 1%nat; reflexivity].
    destruct (py_get "secure_url" result) as [u|c d|e]; simpl;
      [|exists 1%nat; reflexivity|exists 1%nat; reflexivity].
    destruct (truthy u);
      [destruct (IH (acc ++ [u]) (log_call (UploadCall f) w)) as [n Hn]
      |destruct (IH acc (log_call (UploadCall f) w)) as [n Hn]];
      exists (S n); rewrite Hn; simpl; apply log_calls_cons.
Qed.

(** X23: whatever [upload_images] ends in, the calls it has made are
    uploads of accepted files, in the order of the collection and without
    a gap, and nothing else in the world has changed: a skipped file is
    never sent, and neither the session nor the stored reviews are
    touched. *)
Theorem upload_images_only_uploads (files : list (option UploadFile))
    (w : world) :
  (exists n,
     snd (upload_images (Some files) w) =
       log_calls (map UploadCall (firstn n (accepted files))) w) /\
  snd (upload_images None w) = w.
Proof.
  split; [|reflexivity].
  destruct files as [|file rest].
  - exists 0%nat. simpl. rewrite log_calls_nil. reflexivity.
  - apply upload_each_calls.
Qed.

Lemma create_review_success (name address : string) (rating : Z)
    (files : list (option UploadFile)) (user : pydict) (now : Z) (w : world)
    (lat lon : float64) (email : pyval) :
  0 <= rating <= 5 ->
  fst (geocode_address address w) = Ok (VFloat lat, VFloat lon) ->
  (forall f, In f (accepted files) ->
     exists d, cloudinary_upload f = Replied (VDict d)) ->
  Dict.lookup "email" user = Some email ->
  existsb
    (has_id (new_ObjectId
               (log_calls (map UploadCall (accepted files))
                  (log_call (GeocodeCall address) w))))
    (reviews_collection w) = false ->
  exists w',
    create_review name address rating (Some files) user now w =
      (Ok (RedirectResponse
             ("/reviews?selected=" ++
              ObjectId_str
                (new_ObjectId
                   (log_calls (map UploadCall (accepted files))
                      (log_call (GeocodeCall address) w))))%string 303), w') /\
    reviews_collection w' =
      reviews_collection w ++
      [ [ ("_id", VObjectId
                    (new_ObjectId
                       (log_calls (map UploadCall (accepted files))
                          (log_call (GeocodeCall address) w))));
          ("name", VStr name);
          ("address", VStr address);
          ("latitude", VFloat lat);
          ("longitude", VFloat lon);
          ("rating", VInt rating);
          ("author_email", bson_value email);
          ("author_name", bson_value (Dict.get "name" user));
          ("token", bson_value (Dict.get "token" user));
          ("token_issued_at", bson_value (Dict.get "iat" user));
          ("token_expires_at", bson_value (Dict.get "exp" user));
          ("images",
           VList (map bson_value (flat_map returned_url (accepted files))));
          ("created_at",
           VDatetime (mk_datetime (now / 1000 * 1000) false)) ] ].
Proof.
  intros Hrange Hgeo Hup Hmail Hnew.
  assert (Hg : geocode_address address w =
               (Ok (VFloat lat, VFloat lon), log_call (GeocodeCall address) w)).
  { rewrite (surjective_pairing (geocode_address address w)).
    rewrite Hgeo, geocode_address_world. reflexivity. }
  eexists. split.
  - unfold create_review. rewrite (rating_in_range _ Hrange).
    unfold bind at 1. rewrite Hg. cbn [is_None orb]. unfold bind at 1.
    rewrite (upload_images_run _ _ Hup).
    unfold bind at 1, lift. simpl py_getitem. rewrite Hmail.
    unfold insert_one. run.
    replace (reviews_collection
               (log_calls (map UploadCall (accepted files))
                  (log_call (GeocodeCall address) w)))
      with (reviews_collection w) by reflexivity.
    rewrite Hnew. reflexivity.
  - reflexivity.
Qed.

(** X24: a review posted with a valid session is stored with the email
    and name of the session's user claims, with the token of the session
    (not a claim that happens to be called ["token"]) and with the expiry
    the session carries, each as BSON keeps it; its [created_at] is the
    clock as the handler reads it, not as the session check did, cut to
    the millisecond and offset-naive. *)
Theorem POST_reviews_copies_credentials (now now' : Z) (name address : string)
    (rating : Z) (files : list (option UploadFile)) (w : world) (u : pydict)
    (lat lon : float64) (email : pyval) :
  Dict.get "user" (session w) = VDict u ->
  truthy (Dict.get "token" (session w)) = true ->
  (forall d, session_expiry w = Some d ->
     aware d = true /\ now < timestamp d) ->
  Dict.lookup "email" u = Some email ->
  0 <= rating <= 5 ->
  fst (geocode_address address w) = Ok (VFloat lat, VFloat lon) ->
  (forall f, In f (accepted files) ->
     exists d, cloudinary_upload f = Replied (VDict d)) ->
  existsb
    (has_id (new_ObjectId
               (log_calls (map UploadCall (accepted files))
                  (log_call (GeocodeCall address) w))))
    (reviews_collection w) = false ->
  exists url stored w',
    POST_reviews now now' name address rating (Some files) w =
      (Ok (RedirectResponse url 303), w') /\
    reviews_collection w' = reviews_collection w ++ [stored] /\
    Dict.get "author_email" stored = bson_value email /\
    Dict.get "author_name" stored = bson_value (Dict.get "name" u) /\
    Dict.get "token" stored = bson_value (Dict.get "token" (session w)) /\
    Dict.get "token_expires_at" stored =
      bson_value (of_option_datetime (session_expiry w)) /\
    Dict.get "created_at" stored =
      VDatetime (mk_datetime (now' / 1000 * 1000) false).
Proof.
  intros Hu Ht He Hmail Hrange Hgeo Hup Hnew.
  assert (Hne : u <> []) by (destruct u; [discriminate|discriminate]).
  pose proof (require_user_valid now w u Hu Hne Ht He) as Hauth.
  set (bundle := Dict.set "exp" _ _) in Hauth.
  assert (Hmail' : Dict.lookup "email" bundle = Some email).
  { unfold bundle. rewrite !lookup_set_other by discriminate. exact Hmail. }
  destruct (create_review_success name address rating files bundle now' w
              lat lon email Hrange Hgeo Hup Hmail' Hnew) as (w' & Hrun & Hc).
  eexists _, _, w'. split; [|split; [exact Hc|]].
  - unfold POST_reviews. rewrite (Depends_authenticated _ _ _ _ _ Hauth).
    exact Hrun.
  - split; [reflexivity|]. split.
    + unfold Dict.get at 1. simpl Dict.lookup.
      unfold bundle, Dict.get.
      rewrite !lookup_set_other by discriminate. reflexivity.
    + split; [|split; [|reflexivity]].
      * unfold Dict.get at 1. simpl Dict.lookup. unfold bundle.
        do 2 (rewrite get_set_other by discriminate).
        rewrite get_set_same. reflexivity.
      * unfold Dict.get at 1. simpl Dict.lookup. unfold bundle.
        rewrite get_set_same. reflexivity.
Qed.

End API.

(** ** The handlers on concrete requests *)

Local Notation stub_create_review :=
  (create_review Stub.nominatim_search Stub.float_of_str Stub.float_of_int
     Stub.ObjectId_str Stub.py_repr Stub.cloudinary_upload Stub.new_ObjectId).
Local Notation stub_get_review :=
  (get_review Stub.ObjectId_str Stub.py_repr Stub.ObjectId_of_str).
Local Notation stub_list_reviews :=
  (list_reviews Stub.ObjectId_str Stub.py_repr Stub.ObjectId_of_str).
Local Notation stub_serialize_review :=
  (serialize_review Stub.ObjectId_str Stub.py_repr).

(** The second pair of date conversions is inverse on every date. *)
Lemma Stub_epoch_inverse (d : datetime) :
  Stub.fromisoformat_epoch (Stub.isoformat_epoch d) = Some d.
Proof.
  destruct d as [t a]. unfold Stub.fromisoformat_epoch, Stub.isoformat_epoch.
  simpl. rewrite DecimalString.NilEmpty.isi, DecimalZ.of_to.
  destruct a; reflexivity.
Qed.

Local Notation epoch_login :=
  (login Stub.verify_oauth2_token Stub.fromtimestamp Stub.isoformat_epoch).
Local Notation epoch_session :=
  (snd (epoch_login Stub.login_data Stub.w_anonymous)).

(** The session [login] opens for a visitor without cookie, before and at
    its expiry, and the visitor without cookie. *)
Lemma get_session_user_written_witness :
  get_session_user Stub.fromisoformat_epoch Stub.t0 epoch_session =
    (Ok (Dict.get "user" (session epoch_session)), epoch_session) /\
  (get_session_user Stub.fromisoformat_epoch Stub.t1 epoch_session =
     (Ok VNone, with_session [] epoch_session) /\
   exists detail w',
     require_user Stub.fromisoformat_epoch Stub.t1 epoch_session =
       (HTTPException 401 detail, w')) /\
  (get_session_user Stub.fromisoformat_epoch Stub.t1 Stub.w_anonymous =
     (Ok VNone, Stub.w_anonymous) /\
   require_user Stub.fromisoformat_epoch Stub.t1 Stub.w_anonymous =
     (HTTPException 401 "No autenticado", Stub.w_anonymous)).
Proof.
  assert (Hwritten : handler_written Stub.verify_oauth2_token
                       Stub.fromtimestamp Stub.isoformat_epoch
                       (session epoch_session)).
  { apply (written_login Stub.verify_oauth2_token Stub.fromtimestamp
             Stub.isoformat_epoch Stub.login_data Stub.w_anonymous
             epoch_session (RedirectResponse "/reviews" 303)).
    - apply written_empty.
    - reflexivity. }
  assert (Haware : forall v d, Stub.fromtimestamp v = inl d -> aware d = true).
  { intros v d. destruct v; simpl; intros H; inversion H; reflexivity. }
  assert (Hiso : forall d, aware d = true ->
                 Stub.fromisoformat_epoch (Stub.isoformat_epoch d) = Some d).
  { intros d _. apply Stub_epoch_inverse. }
  split; [|split].
  - apply (proj1 (get_session_user_written Stub.fromisoformat_epoch
                    Stub.verify_oauth2_token Stub.fromtimestamp
                    Stub.isoformat_epoch Stub.t0 epoch_session
                    Hwritten Haware Hiso)).
    split; [discriminate|]. right.
    exists (mk_datetime Stub.t1 true).
    split; [reflexivity|]. vm_compute. reflexivity.
  - apply (proj1 (proj2 (proj2 (get_session_user_written
                                  Stub.fromisoformat_epoch
                                  Stub.verify_oauth2_token Stub.fromtimestamp
                                  Stub.isoformat_epoch Stub.t1 epoch_session
                                  Hwritten Haware Hiso)))
             (mk_datetime Stub.t1 true)).
    + reflexivity.
    + simpl. lia.
  - apply (proj2 (proj2 (proj2 (get_session_user_written
                                  Stub.fromisoformat_epoch
                                  Stub.verify_oauth2_token Stub.fromtimestamp
                                  Stub.isoformat_epoch Stub.t1
                                  Stub.w_anonymous
                                  (written_empty _ _ _) Haware Hiso)))).
    reflexivity.
Defined.

Lemma require_user_unauthenticated_witness :
  require_user Stub.fromisoformat Stub.t1 Stub.w_token_only =
    (HTTPException 401 "No autenticado", Stub.w_token_only) /\
  require_user Stub.fromisoformat Stub.t1 Stub.w_login =
    (HTTPException 401 "Token OAuth caducado", with_session [] Stub.w_login) /\
  (401 = 401).
Proof.
  split; [|split].
  - apply (proj1 (require_user_unauthenticated
                    Stub.fromisoformat Stub.t1 Stub.w_token_only)).
    left. reflexivity.
  - apply (proj1 (proj2 (require_user_unauthenticated
                           Stub.fromisoformat Stub.t1 Stub.w_login))
             (mk_datetime Stub.t1 true));
      [reflexivity|reflexivity|reflexivity|reflexivity|].
    unfold Stub.t1. simpl. lia.
  - apply (proj2 (proj2 (require_user_unauthenticated
                           Stub.fromisoformat Stub.t1 Stub.w_login))
             401 "Token OAuth caducado" (with_session [] Stub.w_login)).
    reflexivity.
Defined.

(** C4, as stated, fails: no session and an expired session reach the
    caller with different bodies. *)
Lemma require_user_details_differ :
  require_user Stub.fromisoformat Stub.t1 Stub.w_anonymous =
    (HTTPException 401 "No autenticado", Stub.w_anonymous) /\
  require_user Stub.fromisoformat Stub.t1 Stub.w_login =
    (HTTPException 401 "Token OAuth caducado", with_session [] Stub.w_login) /\
  @HTTPException pydict 401 "No autenticado" <>
    HTTPException 401 "Token OAuth caducado".
Proof. repeat split. discriminate. Qed.

Lemma create_review_geocode_no_result_witness :
  exists detail w',
    stub_create_review "Cafe X" "Nowhere" 4 (Some [Some Stub.front_jpg])
      Stub.credentials Stub.t0 Stub.w_anonymous =
      (HTTPException 400 detail, w') /\
    reviews_collection w' = [] /\
    (calls w' = [] \/ calls w' = [GeocodeCall "Nowhere"]).
Proof.
  apply (proj1 (create_review_geocode_no_result
                  Stub.nominatim_search Stub.float_of_str Stub.float_of_int
                  Stub.ObjectId_str Stub.py_repr Stub.cloudinary_upload
                  Stub.new_ObjectId "Cafe X" "Nowhere" 4
                  (Some [Some Stub.front_jpg]) Stub.credentials Stub.t0
                  Stub.w_anonymous (VList []) eq_refl eq_refl)).
Defined.

Lemma create_review_rating_range_witness :
  (exists detail w',
     stub_create_review "Cafe X" "123 Main St" (-1) None Stub.credentials
       Stub.t0 Stub.w_anonymous = (HTTPException 400 detail, w')) /\
  (exists detail w',
     stub_create_review "Cafe X" "123 Main St" 6 None Stub.credentials
       Stub.t0 Stub.w_anonymous = (HTTPException 400 detail, w')) /\
  (exists w',
     stub_create_review "Cafe X" "123 Main St" 4 None Stub.credentials
       Stub.t0 Stub.w_anonymous =
       (Ok (RedirectResponse "/reviews?selected=65920080a1b2c3d4e5f60000" 303),
        w') /\
     0 <= 4 <= 5).
Proof.
  split; [|split].
  - apply (proj1 (create_review_rating_range
                    Stub.nominatim_search Stub.float_of_str Stub.float_of_int
                    Stub.ObjectId_str Stub.py_repr Stub.cloudinary_upload
                    Stub.new_ObjectId "Cafe X" "123 Main St" (-1) None
                    Stub.credentials Stub.t0 Stub.w_anonymous)).
    left. lia.
  - apply (proj1 (create_review_rating_range
                    Stub.nominatim_search Stub.float_of_str Stub.float_of_int
                    Stub.ObjectId_str Stub.py_repr Stub.cloudinary_upload
                    Stub.new_ObjectId "Cafe X" "123 Main St" 6 None
                    Stub.credentials Stub.t0 Stub.w_anonymous)).
    right. lia.
  - eexists. split; [vm_compute; reflexivity|].
    eapply (proj2 (create_review_rating_range
                     Stub.nominatim_search Stub.float_of_str Stub.float_of_int
                     Stub.ObjectId_str Stub.py_repr Stub.cloudinary_upload
                     Stub.new_ObjectId "Cafe X" "123 Main St" 4 None
                     Stub.credentials Stub.t0 Stub.w_anonymous)).
    vm_compute. reflexivity.
Defined.

Lemma create_review_rating_checked_first_witness :
  exists detail w',
    stub_create_review "Cafe X" "123 Main St" 6 (Some [Some Stub.front_jpg])
      Stub.credentials Stub.t0 Stub.w_anonymous =
      (HTTPException 400 detail, w') /\
    calls w' = [] /\ reviews_collection w' = [].
Proof.
  apply (create_review_rating_checked_first
           Stub.nominatim_search Stub.float_of_str Stub.float_of_int
           Stub.ObjectId_str Stub.py_repr Stub.cloudinary_upload
           Stub.new_ObjectId "Cafe X" "123 Main St" 6
           (Some [Some Stub.front_jpg]) Stub.credentials Stub.t0
           Stub.w_anonymous).
  right. lia.
Defined.

Lemma get_review_status_witness :
  stub_get_review "not-an-id" Stub.credentials Stub.w_three =
    (HTTPException 400 "Identificador inválido", Stub.w_three) /\
  stub_get_review "65920080a1b2c3d4e5f60009" Stub.credentials Stub.w_three =
    (HTTPException 404 "Reseña no encontrada", Stub.w_three) /\
  stub_get_review "65920080a1b2c3d4e5f60001" Stub.credentials Stub.w_three =
    (Ok (JSONResponse (VDict (stub_serialize_review Stub.cafe_y))),
     Stub.w_three).
Proof.
  split; [|split].
  - apply (proj1 (get_review_status
                    Stub.ObjectId_str Stub.py_repr Stub.ObjectId_of_str
                    "not-an-id" Stub.credentials Stub.w_three)).
    reflexivity.
  - apply (proj1 (proj2 (get_review_status
                           Stub.ObjectId_str Stub.py_repr Stub.ObjectId_of_str
                           "65920080a1b2c3d4e5f60009" Stub.credentials
                           Stub.w_three))
             0x65920080a1b2c3d4e5f60009%N); reflexivity.
  - apply (proj2 (proj2 (get_review_status
                           Stub.ObjectId_str Stub.py_repr Stub.ObjectId_of_str
                           "65920080a1b2c3d4e5f60001" Stub.credentials
                           Stub.w_three))
             0x65920080a1b2c3d4e5f60001%N); reflexivity.
Defined.

Lemma list_reviews_selected_witness :
  "not-an-id" <> "" /\
  exists selected_review,
    stub_list_reviews (Some "not-an-id") Stub.credentials Stub.w_three =
      (Ok (TemplateResponse "mapa.html"
             [ ("user", VDict Stub.credentials);
               ("reviews",
                VList (map VDict
                         (map stub_serialize_review
                            [Stub.cafe_z; Stub.cafe_y; Stub.cafe_x])));
               ("selected_review", selected_review) ]), Stub.w_three) /\
    selected_review = VNone.
Proof.
  assert (Hsel : "not-an-id" <> "") by discriminate.
  split; [exact Hsel|].
  destruct (list_reviews_selected
              Stub.ObjectId_str Stub.py_repr Stub.ObjectId_of_str
              "not-an-id" Stub.credentials
              Stub.w_three Hsel) as (sr & Hrun & _ & Hfallback).
  exists sr. split; [exact Hrun|].
  apply (proj1 (Hfallback eq_refl)). reflexivity.
Defined.

Lemma upload_images_urls_witness :
  upload_images Stub.cloudinary_upload
    (Some [Some Stub.front_jpg; None; Some Stub.unnamed; Some Stub.empty_png])
    Stub.w_anonymous =
    (Ok [ VStr "https://res.cloudinary.com/demo/reviews/front.jpg";
          VStr "https://res.cloudinary.com/demo/reviews/a.png" ],
     log_calls [UploadCall Stub.front_jpg; UploadCall Stub.empty_png]
       Stub.w_anonymous) /\
  upload_images Stub.cloudinary_upload None Stub.w_anonymous =
    (Ok [], Stub.w_anonymous) /\
  upload_images Stub.cloudinary_upload (Some []) Stub.w_anonymous =
    (Ok [], Stub.w_anonymous).
Proof.
  apply (upload_images_urls Stub.cloudinary_upload
           [Some Stub.front_jpg; None; Some Stub.unnamed; Some Stub.empty_png]
           Stub.w_anonymous).
  intros f [<-|[<-|[]]]; eexists; reflexivity.
Defined.

(** C8, as stated, fails on a named file without content: it is
    uploaded, and its URL is part of the result. *)
Lemma upload_images_takes_empty_file :
  file Stub.empty_png = [] /\
  upload_images Stub.cloudinary_upload (Some [Some Stub.empty_png])
    Stub.w_anonymous =
    (Ok [VStr "https://res.cloudinary.com/demo/reviews/a.png"],
     mk_world [] [] [UploadCall Stub.empty_png]) /\
  (forall media_host,
     In (UploadCall Stub.empty_png)
       (calls (snd (upload_images media_host (Some [Some Stub.empty_png])
                      Stub.w_anonymous)))).
Proof.
  split; [reflexivity|]. split; [reflexivity|].
  intros media_host. unfold upload_images, upload_each. simpl. run.
  destruct (media_host Stub.empty_png) as [result|e]; [|left; reflexivity].
  destruct (py_get "secure_url" result) as [u| |]; simpl;
    [destruct (truthy u)| |]; left; reflexivity.
Qed.

Lemma create_then_get_review_witness :
  exists oid w' body,
    stub_create_review "Cafe X" "123 Main St" 4 None Stub.credentials Stub.t0
      Stub.w_anonymous =
      (Ok (RedirectResponse
             ("/reviews?selected=" ++ Stub.ObjectId_str oid)%string 303), w') /\
    stub_get_review (Stub.ObjectId_str oid) Stub.credentials w' =
      (Ok (JSONResponse (VDict body)), w') /\
    Dict.lookup "id" body = Some (VStr (Stub.ObjectId_str oid)) /\
    Dict.lookup "name" body = Some (VStr "Cafe X") /\
    Dict.lookup "address" body = Some (VStr "123 Main St") /\
    Dict.lookup "rating" body = Some (VInt 4) /\
    Dict.lookup "images" body = Some (VList []).
Proof.
  apply (create_then_get_review
           Stub.nominatim_search Stub.float_of_str Stub.float_of_int
           Stub.ObjectId_str Stub.py_repr Stub.cloudinary_upload
           Stub.ObjectId_of_str Stub.new_ObjectId
           "Cafe X" "123 Main St" 4 None Stub.credentials Stub.credentials
           Stub.t0 Stub.w_anonymous
           0x404459999999999A 0xC052800000000000 (VStr "ana@example.com")).
  - reflexivity.
  - lia.
  - left. reflexivity.
  - reflexivity.
  - reflexivity.
  - reflexivity.
Defined.

Lemma list_reviews_newest_first_witness :
  exists docs selected_review,
    stub_list_reviews None Stub.credentials Stub.w_three =
      (Ok (TemplateResponse "mapa.html"
             [ ("user", VDict Stub.credentials);
               ("reviews", VList (map VDict (map stub_serialize_review docs)));
               ("selected_review", selected_review) ]), Stub.w_three) /\
    docs = [Stub.cafe_z; Stub.cafe_y; Stub.cafe_x].
Proof.
  destruct (list_reviews_newest_first
              Stub.ObjectId_str Stub.py_repr Stub.ObjectId_of_str
              None Stub.credentials Stub.w_three)
    as (docs & sr & Hrun & _ & _ & Hthree).
  exists docs, sr. split; [exact Hrun|].
  apply (Hthree Stub.cafe_x Stub.cafe_y Stub.cafe_z
           Stub.t0 (Stub.t0 + 1000) Stub.t1);
    try reflexivity; unfold Stub.t0, Stub.t1; lia.
Defined.

Local Notation posted name now w :=
  (snd (stub_create_review name "123 Main St" 4 None Stub.credentials now w)).

(** C5, as stated, fails for reviews created within one millisecond: Cafe
    X, Cafe Y and Cafe Z are created in this order, at increasing times,
    the first two a microsecond apart; the list shows Cafe Z, Cafe X,
    Cafe Y. *)
Lemma list_reviews_within_a_millisecond :
  Stub.t0 < Stub.t0 + 1 < Stub.t1 /\
  Stub.listed_names
    (fst (stub_list_reviews None Stub.credentials
            (posted "Cafe Z" Stub.t1
               (posted "Cafe Y" (Stub.t0 + 1)
                  (posted "Cafe X" Stub.t0 Stub.w_anonymous))))) =
    [VStr "Cafe Z"; VStr "Cafe X"; VStr "Cafe Y"] /\
  [VStr "Cafe Z"; VStr "Cafe X"; VStr "Cafe Y"] <>
    [VStr "Cafe Z"; VStr "Cafe Y"; VStr "Cafe X"].
Proof.
  split; [unfold Stub.t0, Stub.t1; lia|].
  split; [vm_compute; reflexivity|discriminate].
Qed.

(** ** Further runs on concrete requests *)

Local Notation stub_require_user := (require_user Stub.fromisoformat).
Local Notation stub_login :=
  (login Stub.verify_oauth2_token Stub.fromtimestamp Stub.isoformat).
Local Notation stub_GET_home := (GET_home Stub.fromisoformat Stub.CLIENT_ID).
Local Notation stub_GET_reviews :=
  (GET_reviews Stub.fromisoformat Stub.ObjectId_str Stub.py_repr
     Stub.ObjectId_of_str).
Local Notation stub_POST_reviews :=
  (POST_reviews Stub.fromisoformat Stub.nominatim_search Stub.float_of_str
     Stub.float_of_int Stub.ObjectId_str Stub.py_repr Stub.cloudinary_upload
     Stub.new_ObjectId).
Local Notation stub_GET_review :=
  (GET_review Stub.fromisoformat Stub.ObjectId_str Stub.py_repr
     Stub.ObjectId_of_str).

Lemma require_user_bundle_witness :
  exists bundle,
    stub_require_user Stub.t0 Stub.w_login = (Ok bundle, Stub.w_login) /\
    Dict.get "token" bundle = VStr "eyJhbGciOi" /\
    Dict.get "iat" bundle = VDatetime (mk_datetime Stub.t0 true) /\
    Dict.get "exp" bundle = VDatetime (mk_datetime Stub.t1 true) /\
    (forall k, k <> "token" -> k <> "iat" -> k <> "exp" ->
       Dict.lookup k bundle =
         Dict.lookup k [ ("google_id", VStr "1089");
                         ("email", VStr "ana@example.com");
                         ("name", VStr "Ana");
                         ("picture", VNone) ]).
Proof.
  apply (require_user_bundle Stub.fromisoformat Stub.t0 Stub.w_login
           [ ("google_id", VStr "1089");
             ("email", VStr "ana@example.com");
             ("name", VStr "Ana");
             ("picture", VNone) ]).
  - reflexivity.
  - discriminate.
  - reflexivity.
  - intros d Hd. vm_compute in Hd. inversion Hd. subst d.
    split; [reflexivity|]. vm_compute. reflexivity.
Defined.

Lemma require_user_ok_inv_witness :
  Stub.w_login = Stub.w_login /\
  truthy (Dict.get "user" (session Stub.w_login)) = true /\
  truthy (Dict.get "token" (session Stub.w_login)) = true /\
  (forall d, session_expiry Stub.fromisoformat Stub.w_login = Some d ->
     aware d = true /\ Stub.t0 < timestamp d).
Proof.
  apply (require_user_ok_inv Stub.fromisoformat Stub.t0 Stub.w_login
           Stub.w_login Stub.credentials).
  reflexivity.
Defined.

Lemma login_then_require_user_witness :
  exists w' bundle,
    stub_login Stub.login_data Stub.w_anonymous =
      (Ok (RedirectResponse "/reviews" 303), w') /\
    stub_require_user (Stub.t0 + 1) w' = (Ok bundle, w') /\
    Dict.get "token" bundle = VStr "eyJhbGciOi" /\
    Dict.get "google_id" bundle = VStr "1089" /\
    Dict.get "email" bundle = VStr "ana@example.com" /\
    Dict.get "exp" bundle = VDatetime (mk_datetime Stub.t1 true).
Proof.
  apply (login_then_require_user Stub.fromisoformat Stub.verify_oauth2_token
           Stub.fromtimestamp Stub.isoformat Stub.login_data Stub.w_anonymous
           Stub.id_info (Some (mk_datetime Stub.t0 true))
           (Some (mk_datetime Stub.t1 true)) (Stub.t0 + 1)).
  - reflexivity.
  - reflexivity.
  - reflexivity.
  - intros d Hd. inversion Hd. reflexivity.
  - intros d Hd. inversion Hd. split; [reflexivity|]. vm_compute. reflexivity.
Defined.

Lemma login_then_expired_witness :
  stub_require_user Stub.t1 Stub.w_login =
    (HTTPException 401 "Token OAuth caducado", with_session [] Stub.w_login) /\
  stub_require_user (Stub.t1 + 1) (with_session [] Stub.w_login) =
    (HTTPException 401 "No autenticado", with_session [] Stub.w_login) /\
  get_session_user Stub.fromisoformat (Stub.t1 + 1)
    (with_session [] Stub.w_login) =
    (Ok VNone, with_session [] Stub.w_login).
Proof.
  apply (login_then_expired Stub.fromisoformat Stub.verify_oauth2_token
           Stub.fromtimestamp Stub.isoformat Stub.login_data Stub.w_anonymous
           Stub.w_login Stub.id_info (Some (mk_datetime Stub.t0 true))
           (mk_datetime Stub.t1 true) (RedirectResponse "/reviews" 303)
           Stub.t1 (Stub.t1 + 1)).
  - reflexivity.
  - reflexivity.
  - reflexivity.
  - reflexivity.
  - reflexivity.
  - simpl. lia.
  - reflexivity.
Defined.

Lemma login_failure_keeps_session_witness :
  stub_login [] Stub.w_login =
    (HTTPException 400 "Token requerido", Stub.w_login) /\
  Stub.w_login = Stub.w_login.
Proof.
  split; [reflexivity|].
  apply (login_failure_keeps_session Stub.verify_oauth2_token
           Stub.fromtimestamp Stub.isoformat [] Stub.w_login Stub.w_login
           (HTTPException 400 "Token requerido")).
  - reflexivity.
  - discriminate.
Defined.

Lemma routes_require_session_witness :
  stub_GET_reviews Stub.t0 (Some "65920080a1b2c3d4e5f60001") Stub.w_three =
    (HTTPException 401 "No autenticado", Stub.w_three) /\
  stub_POST_reviews Stub.t0 Stub.t0 "Cafe X" "123 Main St" 6 None Stub.w_three =
    (HTTPException 401 "No autenticado", Stub.w_three) /\
  stub_GET_review Stub.t0 "65920080a1b2c3d4e5f60001" Stub.w_three =
    (HTTPException 401 "No autenticado", Stub.w_three).
Proof.
  apply (routes_require_session Stub.fromisoformat Stub.nominatim_search
           Stub.float_of_str Stub.float_of_int Stub.ObjectId_str Stub.py_repr
           Stub.cloudinary_upload Stub.ObjectId_of_str Stub.new_ObjectId
           Stub.w_three Stub.t0 Stub.t0
           (Some "65920080a1b2c3d4e5f60001") "Cafe X" "123 Main St" 6 None
           "65920080a1b2c3d4e5f60001").
  left. reflexivity.
Defined.

Lemma GET_home_cases_witness :
  stub_GET_home Stub.t0 Stub.w_login =
    (Ok (RedirectResponse "/reviews" 303), Stub.w_login) /\
  stub_GET_home Stub.t0 Stub.w_token_only =
    (Ok (TemplateResponse "index.html"
           [ ("client_id", VStr Stub.CLIENT_ID); ("user", VNone) ]),
     Stub.w_token_only).
Proof.
  split.
  - assert (He : forall d,
              session_expiry Stub.fromisoformat Stub.w_login = Some d ->
              aware d = true /\ Stub.t0 < timestamp d).
    { intros d Hd. vm_compute in Hd. inversion Hd. subst d.
      split; [reflexivity|]. vm_compute. reflexivity. }
    apply (proj1 (GET_home_cases Stub.fromisoformat Stub.CLIENT_ID Stub.t0
                    Stub.w_login He)).
    reflexivity.
  - assert (He : forall d,
              session_expiry Stub.fromisoformat Stub.w_token_only = Some d ->
              aware d = true /\ Stub.t0 < timestamp d).
    { intros d Hd. vm_compute in Hd. discriminate Hd. }
    apply (proj2 (GET_home_cases Stub.fromisoformat Stub.CLIENT_ID Stub.t0
                    Stub.w_token_only He)).
    reflexivity.
Defined.

Lemma GET_home_expired_witness :
  stub_GET_home Stub.t1 Stub.w_login =
    (Ok (TemplateResponse "index.html"
           [ ("client_id", VStr Stub.CLIENT_ID); ("user", VNone) ]),
     with_session [] Stub.w_login).
Proof.
  apply (GET_home_expired Stub.fromisoformat Stub.CLIENT_ID Stub.t1
           Stub.w_login (mk_datetime Stub.t1 true)).
  - reflexivity.
  - reflexivity.
  - simpl. lia.
Defined.

Lemma create_review_geocoder_failure_witness :
  create_review Stub.unreachable_nominatim Stub.float_of_str
    Stub.float_of_int Stub.ObjectId_str Stub.py_repr Stub.cloudinary_upload
    Stub.new_ObjectId "Cafe X" "123 Main St" 4 (Some [Some Stub.front_jpg])
    Stub.credentials Stub.t0 Stub.w_anonymous =
    (Raise "requests.exceptions.ConnectionError",
     log_call (GeocodeCall "123 Main St") Stub.w_anonymous).
Proof.
  apply (create_review_geocoder_failure Stub.unreachable_nominatim
           Stub.float_of_str Stub.float_of_int Stub.ObjectId_str Stub.py_repr
           Stub.cloudinary_upload Stub.new_ObjectId "Cafe X" "123 Main St" 4
           (Some [Some Stub.front_jpg]) Stub.credentials Stub.t0
           Stub.w_anonymous "requests.exceptions.ConnectionError").
  - lia.
  - reflexivity.
Defined.

Lemma upload_images_aborts_witness :
  upload_images Stub.flaky_cloudinary_upload
    (Some ([Some Stub.front_jpg; Some Stub.unnamed] ++
           Some Stub.bad_gif :: [Some Stub.back_jpg]))
    Stub.w_anonymous =
    (Raise "cloudinary.exceptions.Error",
     log_calls [UploadCall Stub.front_jpg; UploadCall Stub.bad_gif]
       Stub.w_anonymous).
Proof.
  apply (upload_images_aborts Stub.flaky_cloudinary_upload
           [Some Stub.front_jpg; Some Stub.unnamed] [Some Stub.back_jpg]
           Stub.bad_gif "cloudinary.exceptions.Error" Stub.w_anonymous).
  - intros g [<-|[]]. eexists. reflexivity.
  - reflexivity.
  - reflexivity.
Defined.

Lemma create_review_stores_witness :
  exists stored w',
    stub_create_review "Cafe X" "123 Main St" 4
      (Some [Some Stub.front_jpg; Some Stub.unnamed]) Stub.credentials
      (Stub.t0 + 999) Stub.w_three =
      (Ok (RedirectResponse "/reviews?selected=65920080a1b2c3d4e5f60003" 303),
       w') /\
    reviews_collection w' = reviews_collection Stub.w_three ++ [stored] /\
    session w' = session Stub.w_three /\
    calls w' =
      calls Stub.w_three ++ [GeocodeCall "123 Main St"] ++
      [UploadCall Stub.front_jpg] ++ [InsertCall stored] /\
    stored =
      [ ("_id", VObjectId 0x65920080a1b2c3d4e5f60003%N);
        ("name", VStr "Cafe X");
        ("address", VStr "123 Main St");
        ("latitude", VFloat 0x404459999999999A);
        ("longitude", VFloat 0xC052800000000000);
        ("rating", VInt 4);
        ("author_email", VStr "ana@example.com");
        ("author_name", VStr "Ana");
        ("token", VStr "eyJhbGciOi");
        ("token_issued_at", VDatetime (mk_datetime Stub.t0 false));
        ("token_expires_at", VDatetime (mk_datetime Stub.t1 false));
        ("images",
         VList [VStr "https://res.cloudinary.com/demo/reviews/front.jpg"]);
        ("created_at", VDatetime (mk_datetime Stub.t0 false)) ].
Proof.
  apply (create_review_stores Stub.nominatim_search Stub.float_of_str
           Stub.float_of_int Stub.ObjectId_str Stub.py_repr
           Stub.cloudinary_upload Stub.new_ObjectId "Cafe X" "123 Main St" 4
           [Some Stub.front_jpg; Some Stub.unnamed] Stub.credentials
           (Stub.t0 + 999) Stub.w_three 0x404459999999999A 0xC052800000000000
           (VStr "ana@example.com")).
  - lia.
  - reflexivity.
  - intros f [<-|[]]. eexists. reflexivity.
  - reflexivity.
  - reflexivity.
Defined.

Lemma create_review_missing_email_witness :
  stub_create_review "Cafe X" "123 Main St" 4 (Some [Some Stub.front_jpg])
    [("name", VStr "Ana")] Stub.t0 Stub.w_anonymous =
    (Raise "KeyError",
     log_calls [UploadCall Stub.front_jpg]
       (log_call (GeocodeCall "123 Main St") Stub.w_anonymous)).
Proof.
  apply (create_review_missing_email Stub.nominatim_search Stub.float_of_str
           Stub.float_of_int Stub.ObjectId_str Stub.py_repr
           Stub.cloudinary_upload Stub.new_ObjectId "Cafe X" "123 Main St" 4
           [Some Stub.front_jpg] [("name", VStr "Ana")] Stub.t0
           Stub.w_anonymous 0x404459999999999A 0xC052800000000000).
  - lia.
  - reflexivity.
  - intros f [<-|[]]. eexists. reflexivity.
  - reflexivity.
Defined.

Lemma create_review_upload_failure_witness :
  exists w',
    create_review Stub.nominatim_search Stub.float_of_str Stub.float_of_int
      Stub.ObjectId_str Stub.py_repr Stub.flaky_cloudinary_upload
      Stub.new_ObjectId "Cafe X" "123 Main St" 4
      (Some ([Some Stub.front_jpg] ++ Some Stub.bad_gif :: [Some Stub.back_jpg]))
      Stub.credentials Stub.t0 Stub.w_three =
      (Raise "cloudinary.exceptions.Error", w') /\
    reviews_collection w' = reviews_collection Stub.w_three /\
    calls w' =
      calls Stub.w_three ++ [GeocodeCall "123 Main St"] ++
      [UploadCall Stub.front_jpg; UploadCall Stub.bad_gif].
Proof.
  apply (create_review_upload_failure Stub.nominatim_search Stub.float_of_str
           Stub.float_of_int Stub.ObjectId_str Stub.py_repr
           Stub.flaky_cloudinary_upload Stub.new_ObjectId "Cafe X"
           "123 Main St" 4 [Some Stub.front_jpg] [Some Stub.back_jpg]
           Stub.bad_gif Stub.credentials Stub.t0 Stub.w_three
           0x404459999999999A 0xC052800000000000
           "cloudinary.exceptions.Error").
  - lia.
  - reflexivity.
  - intros g [<-|[]]. eexists. reflexivity.
  - reflexivity.
  - reflexivity.
Defined.


Lemma create_review_keeps_reviews_witness :
  stub_get_review "65920080a1b2c3d4e5f60001" Stub.credentials
    (snd (stub_create_review "Cafe X" "123 Main St" 4 None Stub.credentials
            Stub.t0 Stub.w_three)) =
    (Ok (JSONResponse (VDict (stub_serialize_review Stub.cafe_y))),
     snd (stub_create_review "Cafe X" "123 Main St" 4 None Stub.credentials
            Stub.t0 Stub.w_three)).
Proof.
  apply (create_review_keeps_reviews Stub.nominatim_search Stub.float_of_str
           Stub.float_of_int Stub.ObjectId_str Stub.py_repr
           Stub.cloudinary_upload Stub.ObjectId_of_str Stub.new_ObjectId
           "Cafe X" "123 Main St" 4 None Stub.credentials Stub.credentials
           Stub.t0 Stub.w_three _
           (fst (stub_create_review "Cafe X" "123 Main St" 4 None
                   Stub.credentials Stub.t0 Stub.w_three))
           "65920080a1b2c3d4e5f60001").
  - apply surjective_pairing.
  - reflexivity.
Defined.

Lemma get_review_by_serialized_id_witness :
  Dict.get "id" (stub_serialize_review Stub.cafe_y) =
    VStr (Stub.ObjectId_str 0x65920080a1b2c3d4e5f60001%N) /\
  stub_get_review (Stub.ObjectId_str 0x65920080a1b2c3d4e5f60001%N)
    Stub.credentials Stub.w_three =
    (Ok (JSONResponse (VDict (stub_serialize_review Stub.cafe_y))),
     Stub.w_three).
Proof.
  apply (get_review_by_serialized_id Stub.ObjectId_str Stub.py_repr
           Stub.ObjectId_of_str Stub.credentials Stub.w_three
           0x65920080a1b2c3d4e5f60001%N Stub.cafe_y).
  - reflexivity.
  - reflexivity.
Defined.

Lemma list_reviews_preselects_witness :
  exists r,
    stub_list_reviews (Some (Stub.ObjectId_str 0x65920080a1b2c3d4e5f60001%N))
      Stub.credentials Stub.w_three =
      (Ok (TemplateResponse "mapa.html"
             [ ("user", VDict Stub.credentials);
               ("reviews",
                VList (map VDict
                         (map stub_serialize_review
                            (find_sort_created_at_desc
                               (reviews_collection Stub.w_three)))));
               ("selected_review", VDict r) ]), Stub.w_three) /\
    find (id_is (Stub.ObjectId_str 0x65920080a1b2c3d4e5f60001%N))
      (map stub_serialize_review
         (find_sort_created_at_desc (reviews_collection Stub.w_three))) =
      Some r /\
    In r (map stub_serialize_review
            (find_sort_created_at_desc (reviews_collection Stub.w_three))) /\
    Dict.get "id" r = VStr (Stub.ObjectId_str 0x65920080a1b2c3d4e5f60001%N).
Proof.
  apply (list_reviews_preselects Stub.ObjectId_str Stub.py_repr
           Stub.ObjectId_of_str Stub.credentials Stub.w_three
           0x65920080a1b2c3d4e5f60001%N Stub.cafe_y).
  - right. left. reflexivity.
  - reflexivity.
  - vm_compute. discriminate.
Defined.

Lemma get_session_user_ok_inv_witness :
  Stub.w_login = Stub.w_login /\
  Dict.get "user" Stub.login_session =
    Dict.get "user" (session Stub.w_login) /\
  (forall d, session_expiry Stub.fromisoformat Stub.w_login = Some d ->
     aware d = true /\ Stub.t0 < timestamp d).
Proof.
  apply (get_session_user_ok_inv Stub.fromisoformat Stub.t0 Stub.w_login
           Stub.w_login (Dict.get "user" Stub.login_session));
    reflexivity.
Defined.

Lemma authenticated_home_redirects_witness :
  stub_GET_home Stub.t0 Stub.w_login =
    (Ok (RedirectResponse "/reviews" 303), Stub.w_login).
Proof.
  apply (authenticated_home_redirects Stub.fromisoformat Stub.CLIENT_ID
           Stub.t0 Stub.w_login Stub.w_login Stub.credentials).
  reflexivity.
Defined.

Lemma POST_reviews_copies_credentials_witness :
  exists url stored w',
    stub_POST_reviews Stub.t0 (Stub.t0 + 1) "Cafe X" "123 Main St" 4
      (Some [Some Stub.front_jpg]) Stub.w_login =
      (Ok (RedirectResponse url 303), w') /\
    reviews_collection w' = reviews_collection Stub.w_login ++ [stored] /\
    Dict.get "author_email" stored = VStr "ana@example.com" /\
    Dict.get "author_name" stored = VStr "Ana" /\
    Dict.get "token" stored = VStr "eyJhbGciOi" /\
    Dict.get "token_expires_at" stored = VDatetime (mk_datetime Stub.t1 false) /\
    Dict.get "created_at" stored = VDatetime (mk_datetime Stub.t0 false).
Proof.
  apply (POST_reviews_copies_credentials Stub.fromisoformat
           Stub.nominatim_search Stub.float_of_str Stub.float_of_int
           Stub.ObjectId_str Stub.py_repr Stub.cloudinary_upload
           Stub.new_ObjectId Stub.t0 (Stub.t0 + 1) "Cafe X" "123 Main St" 4
           [Some Stub.front_jpg] Stub.w_login
           [ ("google_id", VStr "1089");
             ("email", VStr "ana@example.com");
             ("name", VStr "Ana");
             ("picture", VNone) ]
           0x404459999999999A 0xC052800000000000 (VStr "ana@example.com")).
  - reflexivity.
  - reflexivity.
  - intros d Hd. vm_compute in Hd. inversion Hd. subst d.
    split; [reflexivity|]. vm_compute. reflexivity.
  - reflexivity.
  - lia.
  - reflexivity.
  - intros f [<-|[]]. eexists. reflexivity.
  - reflexivity.
Defined.
